(** * Etsy MCP server: the tool dispatcher and its authorization gate

    A shallow embedding of [src/index.ts]: the [CallToolRequestSchema]
    handler of [EtsyMCPServer.setupHandlers], the nineteen tool handlers it
    switches over, the tool registry of [getTools] and [createServer].

    JavaScript values are embedded as a JSON tree, [undefined] as [None];
    the asynchronous handlers run in a small monad that threads the list of
    HTTP requests handed to the axios instance and propagates exceptions. *)

From Stdlib Require Import String Ascii List ZArith Bool Lia.
From Stdlib Require Import DecimalString.
Import ListNotations.
Local Open Scope string_scope.
Set Warnings "-register-all".

(* ================================================================== *)
(** ** JavaScript values *)
(* ================================================================== *)

Module JS.

(** A JavaScript number.  The source never computes with numbers: it tests
    them for truthiness and prints them.  An integral number is carried by
    its value; a non-integral one ([19.99]) by the decimal text that
    [Number.prototype.toString] gives it, and is never zero. *)
Inductive number : Type :=
| Int (z : Z)
| Dec (text : string).

(** The values that [JSON.parse] produces: tool arguments and HTTP bodies.
    An object lists its own properties, whose keys are pairwise distinct,
    in enumeration order. *)
Inductive json : Type :=
| JNull
| JBool (b : bool)
| JNum (n : number)
| JStr (s : string)
| JArr (items : list json)
| JObj (fields : list (string * json)).

(** A value that may be [undefined]. *)
Definition value : Type := option json.
Definition undefined : value := None.

(** An object built by the source; a property may hold [undefined]. *)
Definition object : Type := list (string * value).

Definition num (z : Z) : json := JNum (Int z).

(** *** Property access *)

Fixpoint assoc {A : Type} (k : string) (o : list (string * A)) : option A :=
  match o with
  | [] => None
  | (k', v) :: rest => if String.eqb k k' then Some v else assoc k rest
  end.

(** [o.k] on a parsed object: [undefined] when [k] is not a property. *)
Definition get (o : list (string * json)) (k : string) : value := assoc k o.

(** [o.k = v]: overwrite the property in place or append it. *)
Fixpoint set (k : string) (v : value) (o : object) : object :=
  match o with
  | [] => [(k, v)]
  | (k', v') :: rest =>
      if String.eqb k k' then (k, v) :: rest else (k', v') :: set k v rest
  end.

Definition has_key {A : Type} (k : string) (o : list (string * A)) : bool :=
  match assoc k o with Some _ => true | None => false end.

(** *** Truthiness and [||] *)

Definition number_is_zero (n : number) : bool :=
  match n with Int z => Z.eqb z 0 | Dec _ => false end.

Definition string_is_empty (s : string) : bool :=
  match s with EmptyString => true | _ => false end.

Definition truthy (v : value) : bool :=
  match v with
  | None => false
  | Some JNull => false
  | Some (JBool b) => b
  | Some (JNum n) => negb (number_is_zero n)
  | Some (JStr s) => negb (string_is_empty s)
  | Some (JArr _) => true
  | Some (JObj _) => true
  end.

(** [a || b] *)
Definition or_else (a b : value) : value := if truthy a then a else b.

(** *** ToString: template literals and [Array.prototype.join] *)

(** The double nearest to the integer [n >= 0], ties to the even mantissa;
    [None] when [n] rounds beyond the largest finite double.  [Int z]
    stands for the number that [z] denotes, which is this double. *)
Definition nearest_double (n : Z) : option Z :=
  if (n <? 2 ^ 53)%Z then Some n
  else
    let e := (Z.log2 n - 52)%Z in
    let q := Z.shiftr n e in
    let r := (n - Z.shiftl q e)%Z in
    let half := Z.shiftl 1 (e - 1) in
    let q' := if (r <? half)%Z then q
              else if (half <? r)%Z then (q + 1)%Z
              else if Z.even q then q else (q + 1)%Z in
    let v := Z.shiftl q' e in
    if (v <? 2 ^ 1024)%Z then Some v else None.

Definition rounds_to (v c : Z) : bool :=
  match nearest_double c with
  | Some w => (w =? v)%Z
  | None => false
  end.

(** The decimal with the fewest significant digits that reads back as the
    double [v], searched from [10 ^ p] downwards; of two, the closer one. *)
Fixpoint shortest_decimal (v : Z) (p : nat) : Z :=
  let unit := (10 ^ Z.of_nat p)%Z in
  let lo := (v / unit * unit)%Z in
  let hi := (lo + unit)%Z in
  match rounds_to v lo, rounds_to v hi with
  | true, true =>
      if (v - lo <? hi - v)%Z then lo
      else if (hi - v <? v - lo)%Z then hi
      else if Z.even (lo / unit) then lo else hi
  | true, false => lo
  | false, true => hi
  | false, false =>
      match p with
      | O => v
      | S p' => shortest_decimal v p'
      end
  end.

Definition digits (n : Z) : string := NilZero.string_of_int (Z.to_int n).

Fixpoint strip_zeros (fuel : nat) (n : Z) : Z :=
  match fuel with
  | O => n
  | S fuel' => if (n mod 10 =? 0)%Z then strip_zeros fuel' (n / 10) else n
  end.

(** [Number::toString] of a positive integral double, given the shortest
    decimal [c] that reads back as it: all the digits below [1e21], the
    exponent form from there on. *)
Definition positive_to_string (c : Z) : string :=
  if (c <? 10 ^ 21)%Z then digits c
  else
    let n := String.length (digits c) in
    match digits (strip_zeros n c) with
    | String d EmptyString => String d EmptyString
    | String d rest => String d ("." ++ rest)
    | EmptyString => EmptyString
    end ++ "e+" ++ digits (Z.of_nat (n - 1)).

Definition magnitude_to_string (n : Z) : string :=
  match nearest_double n with
  | None => "Infinity"
  | Some v =>
      if (v <? 2 ^ 53)%Z then digits v
      else positive_to_string (shortest_decimal v (String.length (digits v)))
  end.

Definition number_to_string (n : number) : string :=
  match n with
  | Int z =>
      if (z <? 0)%Z then "-" ++ magnitude_to_string (- z)
      else magnitude_to_string z
  | Dec text => text
  end.

(** A number as [JSON.stringify] prints it: [null] when it is not finite. *)
Definition number_to_json (n : number) : string :=
  match n with
  | Int z =>
      match nearest_double (Z.abs z) with
      | Some _ => number_to_string n
      | None => "null"
      end
  | Dec text => text
  end.

Fixpoint concat_with (sep : string) (parts : list string) : string :=
  match parts with
  | [] => EmptyString
  | [p] => p
  | p :: rest => p ++ sep ++ concat_with sep rest
  end.

(** All the conversions of a list, or [None] when one of them fails. *)
Fixpoint sequence (parts : list (option string)) : option (list string) :=
  match parts with
  | [] => Some []
  | Some p :: rest =>
      match sequence rest with
      | Some ps => Some (p :: ps)
      | None => None
      end
  | None :: _ => None
  end.

(** ToString of a parsed value; [None] is the
    [TypeError: Cannot convert object to primitive value].  An array is
    joined by commas.  A plain object gives [[object Object]] through
    [Object.prototype.toString], unless it has an own property [toString]:
    that value is not callable, and [valueOf], own or inherited, gives no
    primitive either. *)
Fixpoint to_string (v : json) : option string :=
  match v with
  | JNull => Some "null"
  | JBool true => Some "true"
  | JBool false => Some "false"
  | JNum n => Some (number_to_string n)
  | JStr s => Some s
  | JArr items =>
      option_map (concat_with ",")
        (sequence
           (map (fun x => match x with
                          | JNull => Some EmptyString
                          | _ => to_string x
                          end) items))
  | JObj fields =>
      if has_key "toString" fields then None else Some "[object Object]"
  end.

(** [xs.join(sep)]: [null] elements give the empty string. *)
Definition join (sep : string) (items : list json) : option string :=
  option_map (concat_with sep)
    (sequence
       (map (fun x => match x with
                      | JNull => Some EmptyString
                      | _ => to_string x
                      end) items)).

(** [`${v}`] *)
Definition interpolate (v : value) : option string :=
  match v with
  | None => Some "undefined"
  | Some j => to_string j
  end.

(** *** [JSON.stringify(v, null, 2)] *)

Definition hex_digit (n : nat) : ascii :=
  match n with
  | 0 => "0" | 1 => "1" | 2 => "2" | 3 => "3" | 4 => "4" | 5 => "5"
  | 6 => "6" | 7 => "7" | 8 => "8" | 9 => "9" | 10 => "a" | 11 => "b"
  | 12 => "c" | 13 => "d" | 14 => "e" | _ => "f"
  end%char%nat.

Definition dquote : string := String (ascii_of_nat 34) EmptyString.
Definition backslash : string := String (ascii_of_nat 92) EmptyString.
Definition newline : string := String (ascii_of_nat 10) EmptyString.

(** One code unit inside a JSON string literal. *)
Definition escape_char (c : ascii) : string :=
  let n := nat_of_ascii c in
  if Nat.eqb n 34 then backslash ++ dquote
  else if Nat.eqb n 92 then backslash ++ backslash
  else if Nat.eqb n 8 then backslash ++ "b"
  else if Nat.eqb n 9 then backslash ++ "t"
  else if Nat.eqb n 10 then backslash ++ "n"
  else if Nat.eqb n 12 then backslash ++ "f"
  else if Nat.eqb n 13 then backslash ++ "r"
  else if Nat.ltb n 32 then
    backslash ++ "u00"
      ++ String (hex_digit (Nat.div n 16))
           (String (hex_digit (Nat.modulo n 16)) EmptyString)
  else String c EmptyString.

Fixpoint escape (s : string) : string :=
  match s with
  | EmptyString => EmptyString
  | String c rest => escape_char c ++ escape rest
  end.

Definition quote (s : string) : string := dquote ++ escape s ++ dquote.

Fixpoint stringify_at (indent : string) (v : json) : string :=
  let inner := indent ++ "  " in
  match v with
  | JNull => "null"
  | JBool true => "true"
  | JBool false => "false"
  | JNum n => number_to_json n
  | JStr s => quote s
  | JArr [] => "[]"
  | JArr items =>
      "[" ++ newline ++ inner
        ++ concat_with ("," ++ newline ++ inner)
             (map (stringify_at inner) items)
        ++ newline ++ indent ++ "]"
  | JObj [] => "{}"
  | JObj fields =>
      "{" ++ newline ++ inner
        ++ concat_with ("," ++ newline ++ inner)
             (map (fun kv => quote (fst kv) ++ ": " ++ stringify_at inner (snd kv))
                  fields)
        ++ newline ++ indent ++ "}"
  end.

(** [JSON.stringify(v, null, 2)] of a parsed value. *)
Definition stringify (v : json) : string := stringify_at EmptyString v.

(** The properties of a source-built object that [JSON.stringify] keeps:
    a property holding [undefined] is skipped. *)
Fixpoint defined_fields (o : object) : list (string * json) :=
  match o with
  | [] => []
  | (k, Some v) :: rest => (k, v) :: defined_fields rest
  | (_, None) :: rest => defined_fields rest
  end.

(** [JSON.stringify(o, null, 2)] of a source-built object. *)
Definition stringify_object (o : object) : string :=
  stringify (JObj (defined_fields o)).

End JS.

Import JS.

Notation "o '.[' k ']'" := (JS.get o k) (at level 1, left associativity,
  format "o .[ k ]").
Notation "a '|||' b" := (JS.or_else a b) (at level 50, left associativity).

(* ================================================================== *)
(** ** The axios instance seen from the handlers *)
(* ================================================================== *)

Inductive verb : Type := GET | POST | PUT | PATCH | DELETE.

(** One call on the axios instance: the verb, the path, the [params] of the
    request configuration and the body object. *)
Record request : Type := mkRequest {
  method : verb;
  url : string;
  params : option JS.object;
  data : option JS.object
}.

(** The part of an [AxiosResponse] that the source reads. *)
Record response : Type := mkResponse {
  resp_data : json;
  resp_status : Z
}.

(** What can be thrown.  [AxiosError] is the only error for which
    [axios.isAxiosError] holds; its [response] is absent on a network
    failure. *)
Inductive exn : Type :=
| AxiosError (message : string) (response : option response)
| TypeError (message : string)
| Error (message : string).

Definition isAxiosError (e : exn) : bool :=
  match e with AxiosError _ _ => true | _ => false end.

Definition error_message (e : exn) : string :=
  match e with
  | AxiosError m _ => m
  | TypeError m => m
  | Error m => m
  end.

Definition error_response (e : exn) : option response :=
  match e with AxiosError _ r => r | _ => None end.

(** How an HTTP call settles. *)
Inductive settled : Type :=
| Resolves (r : response)
| Rejects (e : exn).

(** The remote side, or a stub of it. *)
Definition transport : Type := request -> settled.

(* ================================================================== *)
(** ** The monad of handlers *)
(* ================================================================== *)

Inductive result (A : Type) : Type :=
| Return (a : A)
| Throw (e : exn).
Arguments Return {A} a.
Arguments Throw {A} e.

(** A computation runs against a transport and extends the record of the
    requests made so far. *)
Definition M (A : Type) : Type :=
  transport -> list request -> result A * list request.

Definition ret {A : Type} (a : A) : M A := fun _ log => (Return a, log).

Definition throw {A : Type} (e : exn) : M A := fun _ log => (Throw e, log).

Definition bind {A B : Type} (m : M A) (k : A -> M B) : M B :=
  fun t log =>
    match m t log with
    | (Return a, log') => k a t log'
    | (Throw e, log') => (Throw e, log')
    end.

(** [try { m } catch (error) { handler error }] *)
Definition try_catch {A : Type} (m : M A) (handler : exn -> M A) : M A :=
  fun t log =>
    match m t log with
    | (Return a, log') => (Return a, log')
    | (Throw e, log') => handler e t log'
    end.

(** [await this.axiosInstance.<verb>(...)] *)
Definition http (req : request) : M response :=
  fun t log =>
    match t req with
    | Resolves r => (Return r, (log ++ [req])%list)
    | Rejects e => (Throw e, (log ++ [req])%list)
    end.

Notation "x <- c ;; k" := (bind c (fun x => k))
  (at level 61, c at next level, right associativity).

Definition run {A : Type} (m : M A) (t : transport) : result A * list request :=
  m t [].

(* ================================================================== *)
(** ** Result envelopes *)
(* ================================================================== *)

Record content_item : Type := mkContent {
  type : string;
  text : string
}.

Record envelope : Type := mkEnvelope {
  content : list content_item
}.

(** [{ content: [ { type: 'text', text } ] }] *)
Definition text_content (s : string) : envelope :=
  {| content := [ {| type := "text"; text := s |} ] |}.

(* ================================================================== *)
(** ** Configuration and construction *)
(* ================================================================== *)

Definition ETSY_API_BASE_URL : string := "https://openapi.etsy.com/v3".

Record EtsyConfig : Type := mkEtsyConfig {
  apiKey : string;
  shopId : option string;
  accessToken : option string
}.

(** What [configSchema] admits. *)
Record SmitheryConfig : Type := mkSmitheryConfig {
  cfg_apiKey : string;
  cfg_shopId : option string;
  cfg_accessToken : option string
}.

(** [process.env] *)
Definition environment : Type := string -> option string.

(** Truthiness of a string that may be [undefined]. *)
Definition present (s : option string) : bool :=
  match s with
  | None => false
  | Some s => negb (string_is_empty s)
  end.

(** [a || b] on strings that may be [undefined]. *)
Definition or_string (a b : option string) : option string :=
  if present a then a else b.

(** [a || ''] *)
Definition or_empty (a : option string) : string :=
  match a with
  | Some s => s
  | None => EmptyString
  end.

Record AxiosInstance : Type := mkAxiosInstance {
  baseURL : string;
  headers : list (string * string)
}.

Record EtsyMCPServer : Type := mkServer {
  config : EtsyConfig;
  axiosInstance : AxiosInstance
}.

(** [new EtsyMCPServer(config)] *)
Definition new_EtsyMCPServer (config : EtsyConfig) : EtsyMCPServer :=
  let headers := [("x-api-key", apiKey config)] in
  let headers :=
    if present (accessToken config)
    then (headers ++ [("Authorization",
                         ("Bearer " ++ or_empty (accessToken config))%string)])%list
    else headers in
  {| config := config;
     axiosInstance := {| baseURL := ETSY_API_BASE_URL; headers := headers |} |}.

(** [createServer({ config })]: [config] itself may be [undefined]. *)
Definition createServer (config : option SmitheryConfig) (env : environment)
  : result EtsyMCPServer :=
  let etsyConfig :=
    {| apiKey :=
         or_empty (or_string (or_string (option_map cfg_apiKey config)
                                        (env "ETSY_API_KEY"))
                             (Some EmptyString));
       shopId :=
         or_string (match config with Some c => cfg_shopId c | None => None end)
                   (env "ETSY_SHOP_ID");
       accessToken :=
         or_string (match config with Some c => cfg_accessToken c | None => None end)
                   (env "ETSY_ACCESS_TOKEN") |} in
  if negb (present (Some (apiKey etsyConfig)))
  then Throw (Error "ETSY_API_KEY is required. Provide it via config or environment variable.")
  else Return (new_EtsyMCPServer etsyConfig).

(* ================================================================== *)
(** ** The tool handlers *)
(* ================================================================== *)

(** The [arguments] of a tool call: a parsed object, or [undefined]. *)
Definition bag : Type := list (string * json).
Definition arguments : Type := option bag.

(** The first property read of [args] in a handler: a [TypeError] when
    [args] is [undefined].  Every handler reads a property of [args] before
    its HTTP call, and reads no other object that may be [undefined]. *)
Definition read (args : arguments) (first : string) : M bag :=
  match args with
  | Some a => ret a
  | None =>
      throw (TypeError ("Cannot read properties of undefined (reading '"
                          ++ first ++ "')"))
  end.

(** [if (v) o.k = v;] *)
Definition assign_if_truthy (k : string) (v : value) (o : JS.object) : JS.object :=
  if truthy v then JS.set k v o else o.

(** [if (v !== undefined) o.k = v;] *)
Definition assign_if_defined (k : string) (v : value) (o : JS.object) : JS.object :=
  match v with
  | Some _ => JS.set k v o
  | None => o
  end.

(** A conversion to text inside a handler, in a template literal or in
    [join]: a [TypeError] when it fails. *)
Definition converted (text : option string) : M string :=
  match text with
  | Some s => ret s
  | None => throw (TypeError "Cannot convert object to primitive value")
  end.

Definition oauth_required_message : string :=
  "OAuth access token required. Set ETSY_ACCESS_TOKEN environment variable.".

(** The envelope every management handler returns when
    [!this.config.accessToken]. *)
Definition oauth_required : envelope :=
  text_content (stringify_object [("error", Some (JStr oauth_required_message))]).

(** The envelope of a response body. *)
Definition body_of (r : response) : envelope :=
  text_content (stringify (resp_data r)).

Section Handlers.

Variable this : EtsyMCPServer.

Definition searchListings (args : arguments) : M envelope :=
  a <- read args "keywords" ;;
  let params : JS.object :=
    [ ("keywords", a.["keywords"]);
      ("limit", a.["limit"] ||| Some (num 25));
      ("offset", a.["offset"] ||| Some (num 0)) ] in
  let params := assign_if_truthy "min_price" a.["min_price"] params in
  let params := assign_if_truthy "max_price" a.["max_price"] params in
  let params := assign_if_truthy "sort_on" a.["sort_on"] params in
  let params := assign_if_truthy "sort_order" a.["sort_order"] params in
  response <- http (mkRequest GET "/application/listings/active" (Some params) None) ;;
  ret (body_of response).

Definition getListing (args : arguments) : M envelope :=
  a <- read args "includes" ;;
  includes <-
    match a.["includes"] with
    | None => ret None
    | Some JNull => ret None
    | Some (JArr items) =>
        joined <- converted (JS.join "," items) ;;
        ret (Some (JStr joined))
    | Some _ => throw (TypeError "args.includes?.join is not a function")
    end ;;
  let params : JS.object := if truthy includes then [("includes", includes)] else [] in
  listing_id <- converted (interpolate a.["listing_id"]) ;;
  response <- http (mkRequest GET
                      ("/application/listings/" ++ listing_id)
                      (Some params) None) ;;
  ret (body_of response).

Definition getShop (args : arguments) : M envelope :=
  a <- read args "shop_id" ;;
  shop_id <- converted (interpolate a.["shop_id"]) ;;
  response <- http (mkRequest GET
                      ("/application/shops/" ++ shop_id)
                      None None) ;;
  ret (body_of response).

Definition getShopListings (args : arguments) : M envelope :=
  a <- read args "limit" ;;
  let params : JS.object :=
    [ ("limit", a.["limit"] ||| Some (num 25));
      ("offset", a.["offset"] ||| Some (num 0));
      ("state", a.["state"] ||| Some (JStr "active")) ] in
  shop_id <- converted (interpolate a.["shop_id"]) ;;
  response <- http (mkRequest GET
                      ("/application/shops/" ++ shop_id ++ "/listings")
                      (Some params) None) ;;
  ret (body_of response).

Definition searchShops (args : arguments) : M envelope :=
  a <- read args "shop_name" ;;
  let params : JS.object :=
    [ ("shop_name", a.["shop_name"]);
      ("limit", a.["limit"] ||| Some (num 25));
      ("offset", a.["offset"] ||| Some (num 0)) ] in
  response <- http (mkRequest GET "/application/shops" (Some params) None) ;;
  ret (body_of response).

Definition getListingInventory (args : arguments) : M envelope :=
  a <- read args "listing_id" ;;
  listing_id <- converted (interpolate a.["listing_id"]) ;;
  response <- http (mkRequest GET
                      ("/application/listings/" ++ listing_id ++ "/inventory")
                      None None) ;;
  ret (body_of response).

Definition getListingImages (args : arguments) : M envelope :=
  a <- read args "listing_id" ;;
  listing_id <- converted (interpolate a.["listing_id"]) ;;
  response <- http (mkRequest GET
                      ("/application/listings/" ++ listing_id ++ "/images")
                      None None) ;;
  ret (body_of response).

Definition getShopSections (args : arguments) : M envelope :=
  a <- read args "shop_id" ;;
  shop_id <- converted (interpolate a.["shop_id"]) ;;
  response <- http (mkRequest GET
                      ("/application/shops/" ++ shop_id ++ "/sections")
                      None None) ;;
  ret (body_of response).

Definition getTrendingListings (args : arguments) : M envelope :=
  a <- read args "limit" ;;
  let params : JS.object :=
    [ ("limit", a.["limit"] ||| Some (num 25));
      ("offset", a.["offset"] ||| Some (num 0)) ] in
  response <- http (mkRequest GET "/application/listings/trending" (Some params) None) ;;
  ret (body_of response).

Definition findShops (args : arguments) : M envelope :=
  a <- read args "limit" ;;
  let params : JS.object :=
    [ ("limit", a.["limit"] ||| Some (num 25));
      ("offset", a.["offset"] ||| Some (num 0)) ] in
  let params := assign_if_truthy "location" a.["location"] params in
  response <- http (mkRequest GET "/application/shops" (Some params) None) ;;
  ret (body_of response).

(** *** Shop management (OAuth) *)

Definition createListing (args : arguments) : M envelope :=
  if negb (present (accessToken (config this))) then ret oauth_required else
  a <- read args "quantity" ;;
  let data : JS.object :=
    [ ("quantity", a.["quantity"]);
      ("title", a.["title"]);
      ("description", a.["description"]);
      ("price", a.["price"]);
      ("who_made", a.["who_made"]);
      ("when_made", a.["when_made"]);
      ("taxonomy_id", a.["taxonomy_id"]) ] in
  let data := assign_if_truthy "shipping_profile_id" a.["shipping_profile_id"] data in
  let data := assign_if_truthy "shop_section_id" a.["shop_section_id"] data in
  let data := assign_if_truthy "tags" a.["tags"] data in
  shop_id <- converted (interpolate a.["shop_id"]) ;;
  response <- http (mkRequest POST
                      ("/application/shops/" ++ shop_id ++ "/listings")
                      None (Some data)) ;;
  ret (body_of response).

Definition updateListing (args : arguments) : M envelope :=
  if negb (present (accessToken (config this))) then ret oauth_required else
  a <- read args "title" ;;
  let data : JS.object := [] in
  let data := assign_if_truthy "title" a.["title"] data in
  let data := assign_if_truthy "description" a.["description"] data in
  let data := assign_if_truthy "price" a.["price"] data in
  let data := assign_if_truthy "quantity" a.["quantity"] data in
  let data := assign_if_truthy "tags" a.["tags"] data in
  let data := assign_if_defined "shop_section_id" a.["shop_section_id"] data in
  shop_id <- converted (interpolate a.["shop_id"]) ;;
  listing_id <- converted (interpolate a.["listing_id"]) ;;
  response <- http (mkRequest PATCH
                      ("/application/shops/" ++ shop_id
                         ++ "/listings/" ++ listing_id)
                      None (Some data)) ;;
  ret (body_of response).

Definition deleteListing (args : arguments) : M envelope :=
  if negb (present (accessToken (config this))) then ret oauth_required else
  a <- read args "listing_id" ;;
  listing_id <- converted (interpolate a.["listing_id"]) ;;
  response <- http (mkRequest DELETE
                      ("/application/listings/" ++ listing_id)
                      None None) ;;
  ret (text_content
         (stringify_object
            [ ("success", Some (JBool true));
              ("message", Some (JStr "Listing deleted successfully")) ])).

Definition updateListingInventory (args : arguments) : M envelope :=
  if negb (present (accessToken (config this))) then ret oauth_required else
  a <- read args "products" ;;
  let data : JS.object := [ ("products", a.["products"]) ] in
  let data := assign_if_truthy "price_on_property" a.["price_on_property"] data in
  let data := assign_if_truthy "quantity_on_property" a.["quantity_on_property"] data in
  let data := assign_if_truthy "sku_on_property" a.["sku_on_property"] data in
  listing_id <- converted (interpolate a.["listing_id"]) ;;
  response <- http (mkRequest PUT
                      ("/application/listings/" ++ listing_id ++ "/inventory")
                      None (Some data)) ;;
  ret (body_of response).

Definition uploadListingImage (args : arguments) : M envelope :=
  if negb (present (accessToken (config this))) then ret oauth_required else
  a <- read args "image_url" ;;
  let data : JS.object := [ ("image", a.["image_url"]) ] in
  let data := assign_if_truthy "rank" a.["rank"] data in
  let data := assign_if_truthy "alt_text" a.["alt_text"] data in
  shop_id <- converted (interpolate a.["shop_id"]) ;;
  listing_id <- converted (interpolate a.["listing_id"]) ;;
  response <- http (mkRequest POST
                      ("/application/shops/" ++ shop_id
                         ++ "/listings/" ++ listing_id ++ "/images")
                      None (Some data)) ;;
  ret (body_of response).

Definition createShopSection (args : arguments) : M envelope :=
  if negb (present (accessToken (config this))) then ret oauth_required else
  a <- read args "shop_id" ;;
  shop_id <- converted (interpolate a.["shop_id"]) ;;
  response <- http (mkRequest POST
                      ("/application/shops/" ++ shop_id ++ "/sections")
                      None (Some [ ("title", a.["title"]) ])) ;;
  ret (body_of response).

Definition updateShopSection (args : arguments) : M envelope :=
  if negb (present (accessToken (config this))) then ret oauth_required else
  a <- read args "shop_id" ;;
  shop_id <- converted (interpolate a.["shop_id"]) ;;
  shop_section_id <- converted (interpolate a.["shop_section_id"]) ;;
  response <- http (mkRequest PUT
                      ("/application/shops/" ++ shop_id
                         ++ "/sections/" ++ shop_section_id)
                      None (Some [ ("title", a.["title"]) ])) ;;
  ret (body_of response).

Definition deleteShopSection (args : arguments) : M envelope :=
  if negb (present (accessToken (config this))) then ret oauth_required else
  a <- read args "shop_id" ;;
  shop_id <- converted (interpolate a.["shop_id"]) ;;
  shop_section_id <- converted (interpolate a.["shop_section_id"]) ;;
  response <- http (mkRequest DELETE
                      ("/application/shops/" ++ shop_id
                         ++ "/sections/" ++ shop_section_id)
                      None None) ;;
  ret (text_content
         (stringify_object
            [ ("success", Some (JBool true));
              ("message", Some (JStr "Shop section deleted successfully")) ])).

Definition updateShop (args : arguments) : M envelope :=
  if negb (present (accessToken (config this))) then ret oauth_required else
  a <- read args "title" ;;
  let data : JS.object := [] in
  let data := assign_if_truthy "title" a.["title"] data in
  let data := assign_if_truthy "announcement" a.["announcement"] data in
  let data := assign_if_truthy "sale_message" a.["sale_message"] data in
  let data := assign_if_truthy "policy_welcome" a.["policy_welcome"] data in
  shop_id <- converted (interpolate a.["shop_id"]) ;;
  response <- http (mkRequest PUT
                      ("/application/shops/" ++ shop_id)
                      None (Some data)) ;;
  ret (body_of response).

(** *** The [CallToolRequestSchema] handler *)

(** The [switch (name)] of the handler. *)
Definition select (name : string) (args : arguments) : M envelope :=
  if name =? "search_listings" then searchListings args
  else if name =? "get_listing" then getListing args
  else if name =? "get_shop" then getShop args
  else if name =? "get_shop_listings" then getShopListings args
  else if name =? "search_shops" then searchShops args
  else if name =? "get_listing_inventory" then getListingInventory args
  else if name =? "get_listing_images" then getListingImages args
  else if name =? "get_shop_sections" then getShopSections args
  else if name =? "get_trending_listings" then getTrendingListings args
  else if name =? "find_shops" then findShops args
  else if name =? "create_listing" then createListing args
  else if name =? "update_listing" then updateListing args
  else if name =? "delete_listing" then deleteListing args
  else if name =? "update_listing_inventory" then updateListingInventory args
  else if name =? "upload_listing_image" then uploadListingImage args
  else if name =? "create_shop_section" then createShopSection args
  else if name =? "update_shop_section" then updateShopSection args
  else if name =? "delete_shop_section" then deleteShopSection args
  else if name =? "update_shop" then updateShop args
  else throw (Error ("Unknown tool: " ++ name)).

(** The object of the [catch] block:
    [{ error: error.response?.data || error.message,
       status: error.response?.status }]. *)
Definition failure_object (error : exn) : JS.object :=
  [ ("error", option_map resp_data (error_response error)
                ||| Some (JStr (error_message error)));
    ("status", option_map (fun r => num (resp_status r)) (error_response error)) ].

(** The [catch (error)] block: an axios error becomes an envelope, anything
    else is thrown again. *)
Definition recover (error : exn) : M envelope :=
  if isAxiosError error
  then ret (text_content (stringify_object (failure_object error)))
  else throw error.

Definition call_tool (name : string) (args : arguments) : M envelope :=
  try_catch (select name args) recover.

End Handlers.

(** One tool call against a server and a transport: the envelope returned
    or the exception thrown, and the HTTP requests made. *)
Definition dispatch (this : EtsyMCPServer) (t : transport)
    (name : string) (args : arguments) : result envelope * list request :=
  run (call_tool this name args) t.

Definition outcome (this : EtsyMCPServer) (t : transport)
    (name : string) (args : arguments) : result envelope :=
  fst (dispatch this t name args).

Definition calls (this : EtsyMCPServer) (t : transport)
    (name : string) (args : arguments) : list request :=
  snd (dispatch this t name args).

(* ================================================================== *)
(** ** The tool registry *)
(* ================================================================== *)

(** A [Tool] of [getTools], reduced to its name and the [properties] and
    [required] lists of its [inputSchema]. *)
Record Tool : Type := mkTool {
  name : string;
  properties : list string;
  required : list string
}.

Definition getTools : list Tool :=
  [ mkTool "search_listings"
      ["keywords"; "limit"; "offset"; "min_price"; "max_price"; "sort_on"; "sort_order"]
      ["keywords"];
    mkTool "get_listing" ["listing_id"; "includes"] ["listing_id"];
    mkTool "get_shop" ["shop_id"] ["shop_id"];
    mkTool "get_shop_listings" ["shop_id"; "limit"; "offset"; "state"] ["shop_id"];
    mkTool "search_shops" ["shop_name"; "limit"; "offset"] ["shop_name"];
    mkTool "get_listing_inventory" ["listing_id"] ["listing_id"];
    mkTool "get_listing_images" ["listing_id"] ["listing_id"];
    mkTool "get_shop_sections" ["shop_id"] ["shop_id"];
    mkTool "get_trending_listings" ["limit"; "offset"] [];
    mkTool "find_shops" ["location"; "limit"; "offset"] [];
    mkTool "create_listing"
      ["shop_id"; "quantity"; "title"; "description"; "price"; "who_made";
       "when_made"; "taxonomy_id"; "shipping_profile_id"; "shop_section_id"; "tags"]
      ["shop_id"; "quantity"; "title"; "description"; "price"; "who_made";
       "when_made"; "taxonomy_id"];
    mkTool "update_listing"
      ["shop_id"; "listing_id"; "title"; "description"; "price"; "quantity";
       "tags"; "shop_section_id"]
      ["shop_id"; "listing_id"];
    mkTool "delete_listing" ["listing_id"] ["listing_id"];
    mkTool "update_listing_inventory"
      ["listing_id"; "products"; "price_on_property"; "quantity_on_property";
       "sku_on_property"]
      ["listing_id"; "products"];
    mkTool "upload_listing_image"
      ["shop_id"; "listing_id"; "image_url"; "rank"; "alt_text"]
      ["shop_id"; "listing_id"; "image_url"];
    mkTool "create_shop_section" ["shop_id"; "title"] ["shop_id"; "title"];
    mkTool "update_shop_section" ["shop_id"; "shop_section_id"; "title"]
      ["shop_id"; "shop_section_id"; "title"];
    mkTool "delete_shop_section" ["shop_id"; "shop_section_id"]
      ["shop_id"; "shop_section_id"];
    mkTool "update_shop"
      ["shop_id"; "title"; "announcement"; "sale_message"; "policy_welcome"]
      ["shop_id"] ].

Definition tool_names : list string := map name getTools.

Definition mem (k : string) (ks : list string) : bool :=
  existsb (String.eqb k) ks.

(** The properties of a tool that its schema does not require. *)
Definition optional_fields (tl : Tool) : list string :=
  filter (fun k => negb (mem k (required tl))) (properties tl).

(** The tools of the first block of the switch (API key only) and those
    under the comment [Shop Management Tools]. *)
Definition read_tools : list string :=
  [ "search_listings"; "get_listing"; "get_shop"; "get_shop_listings";
    "search_shops"; "get_listing_inventory"; "get_listing_images";
    "get_shop_sections"; "get_trending_listings"; "find_shops" ].

Definition management_tools : list string :=
  [ "create_listing"; "update_listing"; "delete_listing";
    "update_listing_inventory"; "upload_listing_image"; "create_shop_section";
    "update_shop_section"; "delete_shop_section"; "update_shop" ].

(* ================================================================== *)
(** ** The command-line entry point *)
(* ================================================================== *)

(** How the block under [import.meta.url === `file://${process.argv[1]}`]
    ends before [server.run()]: [process.exit(code)] after a line on the
    error stream, or a constructed server. *)
Inductive startup : Type :=
| Exits (code : Z) (stderr : string)
| Serves (server : EtsyMCPServer).

(** The configuration comes from the environment alone. *)
Definition cli_entry (env : environment) : startup :=
  let config :=
    {| apiKey := or_empty (or_string (env "ETSY_API_KEY") (Some EmptyString));
       shopId := env "ETSY_SHOP_ID";
       accessToken := env "ETSY_ACCESS_TOKEN" |} in
  if negb (present (Some (apiKey config)))
  then Exits 1 "Error: ETSY_API_KEY environment variable is required"
  else Serves (new_EtsyMCPServer config).

(* ================================================================== *)
(** ** Prompts *)
(* ================================================================== *)

Record PromptArgument : Type := mkPromptArgument {
  arg_name : string;
  arg_required : bool
}.

(** A [Prompt] of [getPrompts], reduced to its name and arguments. *)
Record Prompt : Type := mkPrompt {
  prompt_name : string;
  prompt_arguments : list PromptArgument
}.

Definition getPrompts : list Prompt :=
  [ mkPrompt "create-listing-guide" [mkPromptArgument "product_type" true];
    mkPrompt "optimize-listing"
      [mkPromptArgument "listing_id" true;
       mkPromptArgument "focus_keywords" false];
    mkPrompt "shop-analytics-review"
      [mkPromptArgument "shop_id" true;
       mkPromptArgument "time_period" false];
    mkPrompt "product-photography-tips"
      [mkPromptArgument "product_category" true];
    mkPrompt "pricing-strategy"
      [mkPromptArgument "material_cost" true;
       mkPromptArgument "time_hours" true;
       mkPromptArgument "desired_hourly_rate" false] ].

Definition prompt_names : list string := map prompt_name getPrompts.

Record PromptMessage : Type := mkPromptMessage {
  role : string;
  message_content : content_item
}.

Record GetPromptResult : Type := mkGetPromptResult {
  messages : list PromptMessage
}.

(** [{ messages: [ { role: 'user', content: { type: 'text', text } } ] }] *)
Definition user_message (s : string) : GetPromptResult :=
  {| messages :=
       [ {| role := "user";
            message_content := {| type := "text"; text := s |} |} ] |}.

(** The [args?: Record<string, string>] of a prompt request. *)
Definition prompt_args : Type := option (list (string * string)).

(** [args?.k] *)
Definition arg (args : prompt_args) (k : string) : option string :=
  match args with
  | Some a => assoc k a
  | None => None
  end.

(** [v || fallback] where [fallback] is a string literal. *)
Definition or_literal (v : option string) (fallback : string) : string :=
  if present v then or_empty v else fallback.

(** [`${v}`] of a string that may be [undefined]. *)
Definition template (v : option string) : string :=
  match v with
  | Some s => s
  | None => "undefined"
  end.

(** [create-listing-guide] *)
Definition create_listing_guide_text (product_type : string) : string :=
  "Help me create a compelling Etsy listing for a "
  ++ product_type
  ++ " product. Please guide me through:

1. **Title Creation** (max 140 characters):
   - Include key search terms
   - Be specific and descriptive
   - Follow format: [What it is] | [Key feature] | [Use case]

2. **Description Structure**:
   - Opening hook (2-3 sentences)
   - Key features and benefits (bullet points)
   - Materials and dimensions
   - Care instructions
   - Shipping and policies

3. **Tags Strategy** (13 tags):
   - Mix of broad and specific terms
   - Include long-tail keywords
   - Consider seasonal trends

4. **Pricing Considerations**:
   - Material costs + labor + overhead
   - Competitive analysis
   - Etsy fees (6.5% transaction + 3% + $0.25 processing)

5. **Photos Checklist**:
   - Main photo: white background, product centered
   - Lifestyle photos showing scale/use
   - Detail shots of craftsmanship
   - Size comparison images

Please help me optimize each section for maximum visibility and conversions.".

(** [optimize-listing] *)
Definition optimize_listing_text (listingId : option string) (keywords : string) : string :=
  "Analyze and optimize Etsy listing "
  ++ template listingId
  ++ " with focus on these keywords: "
  ++ keywords
  ++ "

Please provide:

1. **SEO-Optimized Title**:
   - Incorporate keywords: "
  ++ keywords
  ++ "
   - Stay under 140 characters
   - Front-load important terms

2. **Enhanced Description**:
   - Keyword-rich opening paragraph
   - Scannable bullet points
   - Answer common customer questions
   - Include size, material, and shipping info

3. **Strategic Tags** (13 recommendations):
   - High-volume search terms
   - Niche-specific keywords
   - Long-tail variations
   - Seasonal opportunities

4. **Competitive Analysis**:
   - Similar listings comparison
   - Price positioning
   - Unique selling points

5. **Action Items**:
   - Quick wins for immediate improvement
   - Long-term optimization strategies
   - A/B testing suggestions".

(** [shop-analytics-review] *)
Definition shop_analytics_review_text (shopId : option string) (period : string) : string :=
  "Create a comprehensive analytics review for Etsy shop "
  ++ template shopId
  ++ " covering "
  ++ period
  ++ ".

Analysis Framework:

1. **Traffic Metrics**:
   - Total visits and sources
   - Conversion rate trends
   - Bounce rate analysis
   - Top-performing listings

2. **Sales Performance**:
   - Revenue and order volume
   - Average order value
   - Best-selling products
   - Seasonal patterns

3. **SEO Performance**:
   - Top search terms driving traffic
   - Listing ranking improvements/declines
   - Click-through rates
   - Tag effectiveness

4. **Customer Insights**:
   - Geographic distribution
   - Repeat customer rate
   - Review sentiment analysis
   - Cart abandonment rate

5. **Recommendations**:
   - Underperforming listings to optimize
   - Inventory adjustments
   - Marketing opportunities
   - Pricing strategy review

Please use the available MCP tools to gather data and provide actionable insights.".

(** [product-photography-tips] *)
Definition product_photography_tips_text (category : string) : string :=
  "Provide comprehensive product photography guidance for "
  ++ category
  ++ " on Etsy.

**Photography Essentials:**

1. **Equipment Setup**:
   - Camera: DSLR, mirrorless, or modern smartphone
   - Lighting: Natural light or softbox setup
   - Background: White sweep or lifestyle setting
   - Tripod for consistency

2. **Shot List for "
  ++ category
  ++ "**:
   - Hero shot (main listing photo)
   - Scale/size reference shots
   - Detail and texture closeups
   - Lifestyle/in-use photos
   - Packaging presentation
   - Multiple angles (360° view)

3. **Technical Requirements**:
   - Resolution: Minimum 2000px on longest side
   - Format: JPG for best compatibility
   - File size: Under 1MB for fast loading
   - Aspect ratio: Square (1:1) works best

4. **Styling Tips for "
  ++ category
  ++ "**:
   - Props that complement without distracting
   - Consistent brand aesthetic
   - Color harmony and contrast
   - Storytelling through composition

5. **Post-Processing**:
   - Brightness and contrast adjustment
   - Color correction for accuracy
   - Background cleanup
   - Watermarking considerations

6. **Etsy-Specific Best Practices**:
   - First photo determines thumbnail
   - Mobile optimization crucial (70% of traffic)
   - Use all 10 image slots
   - Video recommended for engagement".

Section Prompts.

(** The text of [pricing-strategy] is computed in floating point
    ([parseFloat], [toFixed]); it is left as a function of the arguments. *)
Variable pricing_strategy_text : prompt_args -> string.

Definition getPrompt (name : string) (args : prompt_args) : result GetPromptResult :=
  if name =? "create-listing-guide" then
    Return (user_message
              (create_listing_guide_text (or_literal (arg args "product_type") "handmade")))
  else if name =? "optimize-listing" then
    let listingId := arg args "listing_id" in
    let keywords := or_literal (arg args "focus_keywords") "handmade, unique, quality" in
    Return (user_message (optimize_listing_text listingId keywords))
  else if name =? "shop-analytics-review" then
    let shopId := arg args "shop_id" in
    let period := or_literal (arg args "time_period") "last_month" in
    Return (user_message (shop_analytics_review_text shopId period))
  else if name =? "product-photography-tips" then
    let category := or_literal (arg args "product_category") "general products" in
    Return (user_message (product_photography_tips_text category))
  else if name =? "pricing-strategy" then
    Return (user_message (pricing_strategy_text args))
  else Throw (Error ("Unknown prompt: " ++ name)).

End Prompts.

(* ================================================================== *)
(** ** Resources *)
(* ================================================================== *)

(** A [Resource] of [getResources], reduced to its name, URI and type. *)
Record Resource : Type := mkResource {
  resource_name : string;
  resource_uri : string;
  resource_mimeType : string
}.

Definition getResources : list Resource :=
  [ mkResource "etsy-api-docs" "etsy://docs/api" "text/plain";
    mkResource "etsy-seller-handbook" "etsy://docs/seller-handbook" "text/plain";
    mkResource "etsy-seo-guide" "etsy://docs/seo-guide" "text/plain";
    mkResource "etsy-shipping-guide" "etsy://docs/shipping" "text/plain";
    mkResource "etsy-photography-tips" "etsy://docs/photography" "text/plain";
    mkResource "etsy-fees-calculator" "etsy://tools/fees-calculator" "application/json" ].

Definition resource_uris : list string := map resource_uri getResources.

Record ResourceContents : Type := mkResourceContents {
  uri : string;
  mimeType : string;
  resource_text : string
}.

Record ReadResourceResult : Type := mkReadResourceResult {
  contents : list ResourceContents
}.

(** The object that [etsy://tools/fees-calculator] serializes. *)
Definition fees_calculator : json :=
  JObj
    [ ("title", JStr "Etsy Fees Calculator");
      ("description", JStr "Calculate all Etsy fees and determine optimal pricing");
      ("fees",
       JObj [ ("listing_fee", JNum (Dec "0.2"));
              ("transaction_fee_percent", JNum (Dec "6.5"));
              ("payment_processing_percent", num 3);
              ("payment_processing_fixed", JNum (Dec "0.25"));
              ("offsite_ads_percent", num 12);
              ("currency_conversion_percent", JNum (Dec "2.5")) ]);
      ("calculator",
       JObj [ ("example",
               JObj [ ("product_price", num 50);
                      ("calculation",
                       JObj [ ("listing_fee", JNum (Dec "0.2"));
                              ("transaction_fee", JNum (Dec "3.25"));
                              ("payment_processing", JNum (Dec "1.75"));
                              ("total_fees", JNum (Dec "5.2"));
                              ("seller_receives", JNum (Dec "44.8"));
                              ("fee_percentage", JNum (Dec "10.4")) ]) ]) ]);
      ("pricing_formula",
       JObj [ ("minimum_price",
               JStr "(Material_Cost + Labor_Cost + Overhead) / (1 - Fee_Percentage)");
              ("suggested_retail",
               JStr "Minimum_Price * (1 + Desired_Profit_Margin)");
              ("profit_margin",
               JStr "Recommended 30-50% for sustainable business") ]);
      ("tips",
       JArr [ JStr "Build fees into your pricing, don't absorb them";
              JStr "Account for 10-15% in fees for domestic sales";
              JStr "Add 15-20% for international sales (currency conversion)";
              JStr "Remember offsite ads are 12% (15% if over $10k annual)";
              JStr "Free shipping? Add average shipping cost to price";
              JStr "Consider payment processor fees vary by country" ]) ].

Section Resources.

(** The five documents are string literals of the source, several hundred
    lines each; they are taken as they come. *)
Variables api_text seller_handbook_text seo_guide_text
          shipping_text photography_text : string.

Definition readResource (uri : string) : result ReadResourceResult :=
  let one mimeType text :=
    Return {| contents := [ {| uri := uri; mimeType := mimeType;
                               resource_text := text |} ] |} in
  if uri =? "etsy://docs/api" then one "text/plain" api_text
  else if uri =? "etsy://docs/seller-handbook" then one "text/plain" seller_handbook_text
  else if uri =? "etsy://docs/seo-guide" then one "text/plain" seo_guide_text
  else if uri =? "etsy://docs/shipping" then one "text/plain" shipping_text
  else if uri =? "etsy://docs/photography" then one "text/plain" photography_text
  else if uri =? "etsy://tools/fees-calculator" then
    one "application/json" (stringify fees_calculator)
  else Throw (Error ("Unknown resource URI: " ++ uri)).

End Resources.

(* ================================================================== *)
(** ** Vocabulary of the statements *)
(* ================================================================== *)

(** What the success path of a tool makes of the response. *)
Definition success_envelope (name : string) (r : response) : envelope :=
  if name =? "delete_listing" then
    text_content (stringify_object
      [ ("success", Some (JBool true));
        ("message", Some (JStr "Listing deleted successfully")) ])
  else if name =? "delete_shop_section" then
    text_content (stringify_object
      [ ("success", Some (JBool true));
        ("message", Some (JStr "Shop section deleted successfully")) ])
  else body_of r.

(** How a tool call ends once its HTTP call has settled. *)
Definition settle (k : response -> envelope) (s : settled) : result envelope :=
  match s with
  | Resolves r => Return (k r)
  | Rejects e =>
      if isAxiosError e
      then Return (text_content (stringify_object (failure_object e)))
      else Throw e
  end.

(** [v] converts to text: [`${v}`] does not throw. *)
Definition printable (v : value) : bool :=
  match interpolate v with
  | Some _ => true
  | None => false
  end.

(** [args.includes?.join(',')] does not throw: [includes] is absent,
    [null], or an array whose elements convert to text. *)
Definition includes_joinable (a : bag) : bool :=
  match a.["includes"] with
  | None => true
  | Some JNull => true
  | Some (JArr items) =>
      match JS.join "," items with
      | Some _ => true
      | None => false
      end
  | Some _ => false
  end.

(** The fields that the handler of a tool interpolates into its path. *)
Definition path_fields (name : string) : list string :=
  if name =? "get_listing" then ["listing_id"]
  else if name =? "get_shop" then ["shop_id"]
  else if name =? "get_shop_listings" then ["shop_id"]
  else if name =? "get_listing_inventory" then ["listing_id"]
  else if name =? "get_listing_images" then ["listing_id"]
  else if name =? "get_shop_sections" then ["shop_id"]
  else if name =? "create_listing" then ["shop_id"]
  else if name =? "update_listing" then ["shop_id"; "listing_id"]
  else if name =? "delete_listing" then ["listing_id"]
  else if name =? "update_listing_inventory" then ["listing_id"]
  else if name =? "upload_listing_image" then ["shop_id"; "listing_id"]
  else if name =? "create_shop_section" then ["shop_id"]
  else if name =? "update_shop_section" then ["shop_id"; "shop_section_id"]
  else if name =? "delete_shop_section" then ["shop_id"; "shop_section_id"]
  else if name =? "update_shop" then ["shop_id"]
  else [].

(** Every conversion to text that the handler of [name] performs on the
    bag succeeds. *)
Definition convertible (name : string) (a : bag) : bool :=
  forallb (fun k => printable a.[k]) (path_fields name)
  && (if name =? "get_listing" then includes_joinable a else true).

(** The three ways a call of a registered tool can go. *)
Inductive shape (this : EtsyMCPServer) (t : transport)
    (name : string) (args : arguments)
  : result envelope * list request -> Prop :=
| shape_refused :
    mem name management_tools = true ->
    present (accessToken (config this)) = false ->
    shape this t name args (Return oauth_required, [])
| shape_type_error (m : string) :
    (mem name management_tools = true ->
     present (accessToken (config this)) = true) ->
    args = None \/
    (exists a, args = Some a /\ convertible name a = false) ->
    shape this t name args (Throw (TypeError m), [])
| shape_called (a : bag) (req : request) :
    args = Some a ->
    convertible name a = true ->
    (mem name management_tools = true ->
     present (accessToken (config this)) = true) ->
    shape this t name args (settle (success_envelope name) (t req), [req]).

(** [needle] occurs in [s]. *)
Definition mentions (needle s : string) : bool :=
  match String.index 0 needle s with
  | Some _ => true
  | None => false
  end.

(** The value handed to axios for the query parameter [k]. *)
Definition param (req : request) (k : string) : value :=
  match params req with
  | Some p => match assoc k p with Some v => v | None => None end
  | None => None
  end.

(** [k] is a key of the query parameters or of the body of [req]. *)
Definition sent (k : string) (req : request) : bool :=
  match params req with Some p => has_key k p | None => false end
  || match data req with Some d => has_key k d | None => false end.

(** The fields that a handler fills with a default when they are falsy. *)
Definition defaulted_fields : list string := ["limit"; "offset"; "state"].

(** Stubs. *)
Definition stub_server (token : option string) : EtsyMCPServer :=
  new_EtsyMCPServer (mkEtsyConfig "key" None token).

Definition stub_ok (body : json) : transport :=
  fun _ => Resolves (mkResponse body 200).

Definition stub_fail (e : exn) : transport := fun _ => Rejects e.

Definition not_found : exn :=
  AxiosError "Request failed with status code 404"
    (Some (mkResponse (JObj [("error", JStr "Resource not found")]) 404)).

(** *** Statements that the code does not satisfy as they are written *)

(** [update_listing] with only [price] set sends exactly [{price}], for
    every supplied price. *)
Definition price_alone_always_sent : Prop :=
  forall (this : EtsyMCPServer) (t : transport) (a : bag) (p : json),
    present (accessToken (config this)) = true ->
    a.["price"] = Some p ->
    a.["title"] = None -> a.["description"] = None ->
    a.["quantity"] = None -> a.["tags"] = None ->
    a.["shop_section_id"] = None ->
    exists req,
      calls this t "update_listing" (Some a) = [req] /\
      method req = PATCH /\
      data req = Some [("price", Some p)].

(** An optional field absent from the bag never appears in the request. *)
Definition absent_optional_never_sent : Prop :=
  forall (this : EtsyMCPServer) (t : transport) (tl : Tool) (k : string)
         (a : bag) (req : request),
    In tl getTools -> In k (optional_fields tl) ->
    a.[k] = None ->
    In req (calls this t (name tl) (Some a)) ->
    sent k req = false.

(** Every read tool makes exactly one HTTP call on every bag. *)
Definition read_always_one_call : Prop :=
  forall (this : EtsyMCPServer) (t : transport) (name : string) (a : bag),
    In name read_tools ->
    List.length (calls this t name (Some a)) = 1%nat.

(* ================================================================== *)
(** ** Running a handler *)
(* ================================================================== *)

#[local] Arguments stringify : simpl never.
#[local] Arguments stringify_object : simpl never.
#[local] Arguments interpolate : simpl never.
#[local] Arguments JS.join : simpl never.
#[local] Arguments String.append : simpl never.

Lemma bind_ret {A B : Type} (a : A) (k : A -> M B) : bind (ret a) k = k a.
Proof. reflexivity. Qed.

Lemma bind_throw {A B : Type} (e : exn) (k : A -> M B) : bind (throw e) k = throw e.
Proof. reflexivity. Qed.

Lemma try_http (t : transport) (req : request) (k : response -> envelope) :
  run (try_catch (bind (http req) (fun r => ret (k r))) recover) t
  = (settle k (t req), [req]).
Proof.
  unfold run, try_catch, bind, http, settle, recover, ret, throw.
  destruct (t req) as [r | e]; simpl; [reflexivity|].
  destruct (isAxiosError e); reflexivity.
Qed.

Lemma try_ret (t : transport) (env : envelope) :
  run (try_catch (ret env) recover) t = (Return env, []).
Proof. reflexivity. Qed.

Lemma try_throw (t : transport) (e : exn) :
  isAxiosError e = false ->
  run (try_catch (throw e) recover) t = (Throw e, []).
Proof.
  intro H. unfold run, try_catch, throw, recover. simpl. rewrite H. reflexivity.
Qed.

Ltac known_tool H :=
  simpl in H;
  repeat (destruct H as [H | H]; [subst | ]); [ .. | contradiction ].

Ltac enter_handler :=
  unfold outcome, calls, dispatch, call_tool, select;
  cbn [String.eqb Ascii.eqb Bool.eqb];
  unfold searchListings, getListing, getShop, getShopListings, searchShops,
    getListingInventory, getListingImages, getShopSections, getTrendingListings,
    findShops, createListing, updateListing, deleteListing,
    updateListingInventory, uploadListingImage, createShopSection,
    updateShopSection, deleteShopSection, updateShop.

Ltac step_handler :=
  match goal with
  | |- context [present ?x] => destruct (present x) eqn:?
  | |- context [read ?a _] => is_var a; destruct a
  | |- context [match ?a.["includes"] with _ => _ end] =>
      let E := fresh "Hincludes" in
      destruct (a.["includes"]) as [[| | | | |]|] eqn:E
  | |- context [converted ?c] =>
      let E := fresh "Hconv" in
      destruct c eqn:E; cbn [converted]
  end; cbn [negb read];
  rewrite ?bind_ret, ?bind_throw.

Ltac run_handler :=
  enter_handler; cbn [negb read]; repeat step_handler;
  first [ rewrite try_http | rewrite try_ret | rewrite try_throw by reflexivity ].

(** Deciding [convertible] from the conversions met on the way. *)
Ltac decide_convertible :=
  unfold convertible, path_fields, printable, includes_joinable;
  cbn [String.eqb Ascii.eqb Bool.eqb forallb];
  repeat match goal with
         | H : _.["includes"] = _ |- _ => rewrite H
         | H : interpolate _ = _ |- _ => rewrite H
         | H : JS.join _ _ = _ |- _ => rewrite H
         end;
  cbn [andb]; rewrite ?andb_false_r; reflexivity.

Ltac close_shape :=
  match goal with
  | |- shape _ _ _ _ (Return oauth_required, []) =>
      apply shape_refused; [reflexivity | assumption]
  | |- shape _ _ _ _ (Throw (TypeError _), []) =>
      apply shape_type_error;
      [ first [ intros _; assumption | intro; discriminate ]
      | first [ left; reflexivity
              | right; eexists; split; [reflexivity | decide_convertible] ] ]
  | |- shape ?this ?t ?name (Some ?a) (settle _ (?t ?req), _) =>
      refine (shape_called this t name (Some a) a req eq_refl _ _);
      [ decide_convertible
      | first [ intros _; assumption | intro; discriminate ] ]
  end.

Lemma dispatch_shape (this : EtsyMCPServer) (t : transport)
    (name : string) (args : arguments) :
  In name tool_names -> shape this t name args (dispatch this t name args).
Proof.
  intro H. known_tool H.
  all: run_handler.
  all: close_shape.
Qed.

Lemma select_unknown (this : EtsyMCPServer) (name : string) (args : arguments) :
  ~ In name tool_names ->
  select this name args = throw (Error ("Unknown tool: " ++ name)).
Proof.
  intro H. unfold select.
  repeat match goal with
  | |- context [String.eqb name ?s] =>
      destruct (String.eqb_spec name s) as [E | _];
      [ exfalso; apply H; rewrite E; simpl; tauto | ]
  end.
  reflexivity.
Qed.

Lemma dispatch_unknown (this : EtsyMCPServer) (t : transport)
    (name : string) (args : arguments) :
  ~ In name tool_names ->
  dispatch this t name args = (Throw (Error ("Unknown tool: " ++ name)), []).
Proof.
  intro H. unfold dispatch, call_tool. rewrite (select_unknown this name args H).
  apply try_throw. reflexivity.
Qed.

Lemma mem_In (k : string) (ks : list string) : mem k ks = true -> In k ks.
Proof.
  unfold mem. intro H. apply existsb_exists in H. destruct H as [x [Hx E]].
  apply String.eqb_eq in E. now subst.
Qed.

Lemma convertible_intro (name : string) (a : bag) :
  (forall k, In k (path_fields name) -> printable a.[k] = true) ->
  (name = "get_listing" -> includes_joinable a = true) ->
  convertible name a = true.
Proof.
  intros Hp Hi. unfold convertible. apply andb_true_intro. split.
  - apply forallb_forall. exact Hp.
  - destruct (String.eqb_spec name "get_listing") as [E | _]; [now apply Hi | reflexivity].
Qed.

Lemma not_convertible_intro (name k : string) (a : bag) :
  In k (path_fields name) -> printable a.[k] = false ->
  convertible name a = false.
Proof.
  intros Hk Hp. unfold convertible.
  destruct (forallb (fun k => printable a.[k]) (path_fields name)) eqn:E;
    [|reflexivity].
  rewrite forallb_forall in E. rewrite (E k Hk) in Hp. discriminate Hp.
Qed.

(** A registered tool that is not refused makes its one request when every
    conversion succeeds, and throws a [TypeError] without a request when
    one fails. *)
Lemma called_when_convertible (this : EtsyMCPServer) (t : transport)
    (name : string) (a : bag) :
  In name tool_names ->
  (In name management_tools -> present (accessToken (config this)) = true) ->
  convertible name a = true ->
  exists req, calls this t name (Some a) = [req].
Proof.
  intros Hin Htok Hc.
  pose proof (dispatch_shape this t name (Some a) Hin) as S.
  unfold calls. remember (dispatch this t name (Some a)) as d.
  destruct S as [Hm Hno | m _ [Hnone | [a' [Ha' Hbad]]] | a' req _ _ _];
    cbn [snd].
  - rewrite (Htok (mem_In _ _ Hm)) in Hno. discriminate Hno.
  - discriminate Hnone.
  - injection Ha' as <-. rewrite Hc in Hbad. discriminate Hbad.
  - now exists req.
Qed.

Lemma thrown_when_not_convertible (this : EtsyMCPServer) (t : transport)
    (name : string) (a : bag) :
  In name tool_names ->
  (In name management_tools -> present (accessToken (config this)) = true) ->
  convertible name a = false ->
  exists m, dispatch this t name (Some a) = (Throw (TypeError m), []).
Proof.
  intros Hin Htok Hc.
  pose proof (dispatch_shape this t name (Some a) Hin) as S.
  remember (dispatch this t name (Some a)) as d.
  destruct S as [Hm Hno | m _ _ | a' req Ha' Hok _].
  - rewrite (Htok (mem_In _ _ Hm)) in Hno. discriminate Hno.
  - now exists m.
  - injection Ha' as <-. rewrite Hc in Hok. discriminate Hok.
Qed.

(** Inverting [dispatch_shape] on a tool call whose parts are named. *)
Ltac by_shape Hin :=
  match type of Hin with
  | In ?name tool_names =>
      match goal with
      | this : EtsyMCPServer, t : transport, args : arguments |- _ =>
          let S := fresh "S" in
          let d := fresh "d" in
          pose proof (dispatch_shape this t name args Hin) as S;
          unfold outcome, calls in *;
          remember (dispatch this t name args) as d;
          destruct S; cbn [fst snd] in *
      end
  end.

(** Running a handler on a bag, the token check being decided by [Htok]. *)
Ltac run_on_bag :=
  enter_handler;
  repeat match goal with
         | Htok : present (accessToken (config _)) = _ |- _ =>
             rewrite Htok
         end;
  cbn [negb read]; rewrite ?bind_ret; rewrite try_http; cbn [fst snd].

(** Case analysis on the guards of the conditional assignments. *)
Ltac split_truthy :=
  unfold assign_if_truthy, assign_if_defined; cbn [truthy negb];
  repeat (match goal with
          | |- context [truthy ?v] => destruct (truthy v)
          | |- context [string_is_empty ?s] => destruct (string_is_empty s)
          | |- context [match ?a.[?k] with _ => _ end] => destruct (a.[k])
          end; cbn [truthy negb]).

(** Listing the requests of a registered tool: the handler is run down to
    its HTTP call and [Hreq] names the request made, if any. *)
Ltac inspect_calls Hreq :=
  revert Hreq; enter_handler;
  repeat match goal with
         | Htok : present (accessToken (config _)) = _ |- _ => rewrite Htok
         end;
  cbn [negb read]; rewrite ?bind_ret; repeat step_handler;
  first [ rewrite try_http | rewrite try_ret
        | rewrite try_throw by reflexivity ];
  cbn [snd]; intro Hreq; cbn [In] in Hreq; try contradiction;
  destruct Hreq as [<- | []].

(** Case analysis on the guards, keeping what each case assumes. *)
Ltac split_truthy_eq :=
  unfold assign_if_truthy, assign_if_defined, or_else; cbn [truthy negb];
  repeat (match goal with
          | |- context [truthy ?v] => destruct (truthy v) eqn:?
          | |- context [string_is_empty ?s] => destruct (string_is_empty s) eqn:?
          end; cbn [truthy negb]).

Lemma management_are_tools (name : string) :
  In name management_tools -> In name tool_names.
Proof. simpl. intuition. Qed.

Lemma read_are_tools (name : string) :
  In name read_tools -> In name tool_names.
Proof. simpl. intuition. Qed.

Lemma failure_object_json (message : string) (resp : option response) :
  stringify_object (failure_object (AxiosError message resp))
  = stringify
      (JObj (("error",
              match resp with
              | Some r =>
                  if truthy (Some (resp_data r)) then resp_data r
                  else JStr message
              | None => JStr message
              end)
             :: match resp with
                | Some r => [("status", num (resp_status r))]
                | None => []
                end)).
Proof.
  unfold stringify_object, failure_object, or_else.
  destruct resp as [r|]; cbn [error_response error_message option_map].
  - destruct (truthy (Some (resp_data r))); reflexivity.
  - reflexivity.
Qed.

(* ================================================================== *)
(** ** The scenarios of the specification, evaluated *)
(* ================================================================== *)

(** The text of the authorization envelope, character by character. *)
Example oauth_required_text :
  content oauth_required
  = [ {| type := "text";
         text := "{" ++ newline ++ "  " ++ dquote ++ "error" ++ dquote ++ ": "
                   ++ dquote ++ oauth_required_message ++ dquote
                   ++ newline ++ "}" |} ].
Proof. reflexivity. Qed.

(** A successful search hands the arguments to axios and returns the body. *)
Example search_scenario :
  let body := JObj [("count", num 1);
                    ("results", JArr [JObj [("listing_id", num 1)]])] in
  dispatch (stub_server None) (stub_ok body) "search_listings"
    (Some [("keywords", JStr "handmade jewelry"); ("limit", num 10);
           ("sort_on", JStr "price"); ("sort_order", JStr "asc")])
  = (Return (text_content (stringify body)),
     [mkRequest GET "/application/listings/active"
        (Some [("keywords", Some (JStr "handmade jewelry"));
               ("limit", Some (num 10));
               ("offset", Some (num 0));
               ("sort_on", Some (JStr "price"));
               ("sort_order", Some (JStr "asc"))])
        None]).
Proof. reflexivity. Qed.

(** [includes] is joined with commas into one query parameter. *)
Example get_listing_includes :
  calls (stub_server None) (stub_ok JNull) "get_listing"
    (Some [("listing_id", num 42);
           ("includes", JArr [JStr "Images"; JStr "Shop"])])
  = [mkRequest GET "/application/listings/42"
       (Some [("includes", Some (JStr "Images,Shop"))]) None].
Proof. reflexivity. Qed.

(** A call without [arguments] throws before any HTTP request. *)
Example trending_without_arguments :
  dispatch (stub_server None) (stub_ok JNull) "get_trending_listings" None
  = (Throw (TypeError "Cannot read properties of undefined (reading 'limit')"),
     []).
Proof. reflexivity. Qed.

(** A network failure has no response: the message is the error and the
    object has no [status]. *)
Example network_failure :
  outcome (stub_server None) (stub_fail (AxiosError "Network Error" None))
    "get_shop" (Some [("shop_id", num 3)])
  = Return (text_content (stringify (JObj [("error", JStr "Network Error")]))).
Proof. reflexivity. Qed.

(** A response whose body is the empty string is falsy for [||]: the
    message stands in for it, and the status is kept. *)
Example empty_body_falls_back_to_message :
  outcome (stub_server None)
    (stub_fail (AxiosError "Request failed with status code 404"
                  (Some (mkResponse (JStr EmptyString) 404))))
    "get_listing" (Some [("listing_id", num 999)])
  = Return (text_content (stringify
      (JObj [("error", JStr "Request failed with status code 404");
             ("status", num 404)]))).
Proof. reflexivity. Qed.

(** An identifier that does not convert to text: the template literal
    throws before the request. *)
Example unconvertible_identifier :
  dispatch (stub_server None) (stub_ok JNull) "get_shop"
    (Some [("shop_id", JObj [("toString", num 1)])])
  = (Throw (TypeError "Cannot convert object to primitive value"), []).
Proof. reflexivity. Qed.

(** A plain object without an own [toString] converts through
    [Object.prototype.toString]. *)
Example object_identifier :
  calls (stub_server None) (stub_ok JNull) "get_shop"
    (Some [("shop_id", JObj [("id", num 1)])])
  = [mkRequest GET "/application/shops/[object Object]" None None].
Proof. reflexivity. Qed.

(** Integers print as the double they denote. *)
Example number_to_string_of_large_integers :
  JS.number_to_string (Int (2 ^ 64)) = "18446744073709552000" /\
  JS.number_to_string (Int (10 ^ 21)) = "1e+21" /\
  JS.number_to_string (Int (2 ^ 53 + 1)) = "9007199254740992" /\
  JS.number_to_string (Int (- 123456789012345678901234567890))
  = "-1.2345678901234568e+29".
Proof. repeat split; vm_compute; reflexivity. Qed.

(** The headers of the axios instance. *)
Example headers_with_token :
  headers (axiosInstance (stub_server (Some "abc")))
  = [("x-api-key", "key"); ("Authorization", "Bearer abc")].
Proof. reflexivity. Qed.

(* ================================================================== *)
(** ** The claims *)
(* ================================================================== *)

(** C1.  A management tool called on a server whose configuration holds no
    access token (it is [undefined] or empty) returns, without throwing, the
    envelope whose text is the pretty-printed object [{ error: message }]
    where the message names the OAuth access token, and no HTTP request is
    made, whatever the arguments and the transport. *)
Theorem management_without_token_refused
    (this : EtsyMCPServer) (t : transport) (name : string) (args : arguments) :
  In name management_tools ->
  present (accessToken (config this)) = false ->
  dispatch this t name args
  = (Return (text_content
               (stringify (JObj [("error", JStr oauth_required_message)]))),
     [])
  /\ mentions "OAuth access token" oauth_required_message = true.
Proof.
  intros Hin Htok. split; [|reflexivity].
  known_tool Hin.
  all: enter_handler; rewrite Htok; cbn [negb]; rewrite try_ret; reflexivity.
Qed.

Lemma management_without_token_refused_witness :
  In "create_listing" management_tools /\
  present (accessToken (config (stub_server None))) = false /\
  dispatch (stub_server None) (stub_ok JNull) "create_listing"
    (Some [("shop_id", num 1); ("title", JStr "Mug")])
  = (Return (text_content
               (stringify (JObj [("error", JStr oauth_required_message)]))),
     []).
Proof.
  assert (Hin : In "create_listing" management_tools) by (simpl; tauto).
  assert (Htok : present (accessToken (config (stub_server None))) = false)
    by reflexivity.
  split; [exact Hin|]. split; [exact Htok|].
  exact (proj1 (management_without_token_refused (stub_server None)
                  (stub_ok JNull) "create_listing"
                  (Some [("shop_id", num 1); ("title", JStr "Mug")])
                  Hin Htok)).
Defined.

(** C2.  The registry lists nineteen tool names, and a call whose name is
    none of them throws [Error "Unknown tool: <name>"] to the caller: the
    error is not an axios error, so the catch block throws it again instead
    of building an envelope; no HTTP request is made. *)
Theorem unknown_tool_throws :
  List.length tool_names = 19%nat /\
  forall (this : EtsyMCPServer) (t : transport) (name : string)
         (args : arguments),
    ~ In name tool_names ->
    dispatch this t name args
    = (Throw (Error ("Unknown tool: " ++ name)), []).
Proof.
  split; [reflexivity|]. intros. now apply dispatch_unknown.
Qed.

Lemma unknown_tool_throws_witness :
  ~ In "refund_order" tool_names /\
  dispatch (stub_server (Some "token")) (stub_ok JNull) "refund_order" None
  = (Throw (Error "Unknown tool: refund_order"), []).
Proof.
  assert (H : ~ In "refund_order" tool_names)
    by (simpl; intuition discriminate).
  split; [exact H|].
  exact (proj2 unknown_tool_throws (stub_server (Some "token"))
           (stub_ok JNull) "refund_order" None H).
Defined.

(** C3.  When the HTTP call of a registered tool is rejected with an axios
    error, the call returns the envelope of the pretty-printed object
    [{ error, status }]: [error] is the response data when there is a
    response and its data is truthy, else the error message; [status] is
    the response status, and the key is left out when there is no response.
    A rejection that is not an axios error, and any other exception of the
    switch, is thrown again to the caller.  A 404 on [get_listing] gives an
    envelope whose object has [status] 404. *)
Theorem transport_failure_enveloped :
  (forall (this : EtsyMCPServer) (t : transport) (name : string)
          (args : arguments) (req : request)
          (message : string) (resp : option response),
      In name tool_names ->
      In req (calls this t name args) ->
      t req = Rejects (AxiosError message resp) ->
      outcome this t name args
      = Return (text_content (stringify
          (JObj (("error",
                  match resp with
                  | Some r =>
                      if truthy (Some (resp_data r)) then resp_data r
                      else JStr message
                  | None => JStr message
                  end)
                 :: match resp with
                    | Some r => [("status", num (resp_status r))]
                    | None => []
                    end)))))
  /\ (forall (this : EtsyMCPServer) (t : transport) (name : string)
             (args : arguments) (req : request) (e : exn),
         In name tool_names ->
         In req (calls this t name args) ->
         t req = Rejects e ->
         isAxiosError e = false ->
         outcome this t name args = Throw e)
  /\ (forall (this : EtsyMCPServer) (t : transport) (name : string)
             (args : arguments) (e : exn),
         fst (run (select this name args) t) = Throw e ->
         isAxiosError e = false ->
         outcome this t name args = Throw e)
  /\ (forall (this : EtsyMCPServer) (message : string) (body : json),
         dispatch this
           (stub_fail (AxiosError message (Some (mkResponse body 404))))
           "get_listing" (Some [("listing_id", num 999)])
         = (Return (text_content (stringify
              (JObj [("error", if truthy (Some body) then body else JStr message);
                     ("status", num 404)]))),
            [mkRequest GET "/application/listings/999" (Some []) None])).
Proof.
  repeat split.
  - intros this t name args req message resp Hin Hreq Hrej.
    by_shape Hin; try contradiction.
    destruct Hreq as [<- | []]. rewrite Hrej. cbn [settle isAxiosError].
    now rewrite failure_object_json.
  - intros this t name args req e Hin Hreq Hrej Hax.
    by_shape Hin; try contradiction.
    destruct Hreq as [<- | []]. rewrite Hrej. cbn [settle]. now rewrite Hax.
  - intros this t name args e Hbody Hax.
    unfold outcome, dispatch, call_tool, run, try_catch in *.
    destruct (select this name args t []) as [[env | e'] log];
      cbn [fst] in Hbody; [discriminate|].
    injection Hbody as ->. unfold recover. now rewrite Hax.
  - intros this message body.
    enter_handler. cbn [read]. rewrite bind_ret.
    cbn [JS.get assoc String.eqb Ascii.eqb Bool.eqb]. rewrite bind_ret.
    change (interpolate (Some (num 999))) with (Some "999").
    cbn [converted]. rewrite bind_ret.
    rewrite try_http. unfold stub_fail. cbn [settle isAxiosError].
    rewrite failure_object_json. reflexivity.
Qed.

Lemma transport_failure_enveloped_witness :
  let this := stub_server None in
  let req := mkRequest GET "/application/listings/999" (Some []) None in
  let args := Some [("listing_id", num 999)] in
  (In "get_listing" tool_names /\
   In req (calls this (stub_fail not_found) "get_listing" args) /\
   outcome this (stub_fail not_found) "get_listing" args
   = Return (text_content (stringify
       (JObj [("error", JObj [("error", JStr "Resource not found")]);
              ("status", num 404)]))))
  /\ (isAxiosError (Error "socket hang up") = false /\
      outcome this (stub_fail (Error "socket hang up")) "get_listing" args
      = Throw (Error "socket hang up"))
  /\ outcome this (stub_ok JNull) "get_shop" None
     = Throw (TypeError "Cannot read properties of undefined (reading 'shop_id')").
Proof.
  intros this req args.
  assert (Hin : In "get_listing" tool_names) by (simpl; tauto).
  assert (Hreq : In req (calls this (stub_fail not_found) "get_listing" args))
    by (left; reflexivity).
  assert (Hreq' : In req (calls this (stub_fail (Error "socket hang up"))
                            "get_listing" args))
    by (left; reflexivity).
  split; [split; [exact Hin|]; split; [exact Hreq|] | split; [split; [reflexivity|] | ]].
  - exact (proj1 transport_failure_enveloped this
             (stub_fail not_found) "get_listing" args req
             "Request failed with status code 404"
             (Some (mkResponse (JObj [("error", JStr "Resource not found")]) 404))
             Hin Hreq eq_refl).
  - exact (proj1 (proj2 transport_failure_enveloped) this
             (stub_fail (Error "socket hang up")) "get_listing" args req
             (Error "socket hang up") Hin Hreq' eq_refl eq_refl).
  - exact (proj1 (proj2 (proj2 transport_failure_enveloped)) this
             (stub_ok JNull) "get_shop" None
             (TypeError "Cannot read properties of undefined (reading 'shop_id')")
             eq_refl eq_refl).
Defined.

(** C8.  Whenever a tool call returns instead of throwing, what it returns
    is an envelope whose [content] has exactly one item, of type ["text"],
    whose [text] is [JSON.stringify(v, null, 2)] of a JSON value [v], and
    [v] is one of three: the authorization error object, when a management
    tool is refused and no request is made; the body of the response with
    which the one request resolved (for the two delete tools, their
    constant); or the object [{ error, status? }] of the axios error with
    which the one request was rejected. *)
Theorem one_text_envelope
    (this : EtsyMCPServer) (t : transport) (name : string) (args : arguments)
    (env : envelope) :
  outcome this t name args = Return env ->
  (exists v : json,
      env = {| content := [ {| type := "text"; text := stringify v |} ] |})
  /\ ((calls this t name args = [] /\
       In name management_tools /\
       present (accessToken (config this)) = false /\
       env = {| content :=
                  [ {| type := "text";
                       text := stringify
                                 (JObj [("error", JStr oauth_required_message)]) |} ] |})
      \/ (exists req r,
             calls this t name args = [req] /\ t req = Resolves r /\
             env = {| content :=
                        [ {| type := "text";
                             text := stringify
                               (if name =? "delete_listing" then
                                  JObj [("success", JBool true);
                                        ("message", JStr "Listing deleted successfully")]
                                else if name =? "delete_shop_section" then
                                  JObj [("success", JBool true);
                                        ("message", JStr "Shop section deleted successfully")]
                                else resp_data r) |} ] |})
      \/ (exists req message resp,
             calls this t name args = [req] /\
             t req = Rejects (AxiosError message resp) /\
             env = {| content :=
                        [ {| type := "text";
                             text := stringify
                               (JObj (("error",
                                       match resp with
                                       | Some r =>
                                           if truthy (Some (resp_data r))
                                           then resp_data r else JStr message
                                       | None => JStr message
                                       end)
                                      :: match resp with
                                         | Some r => [("status", num (resp_status r))]
                                         | None => []
                                         end)) |} ] |})).
Proof.
  intro H.
  destruct (in_dec string_dec name tool_names) as [Hin | Hout].
  - by_shape Hin.
    + injection H as <-. split; [eexists; reflexivity|]. left.
      split; [reflexivity|]. split; [now apply mem_In|]. split; [assumption|].
      reflexivity.
    + discriminate.
    + destruct (t req) as [r | e] eqn:Ht; cbn [settle] in H.
      * injection H as <-. split.
        -- unfold success_envelope, body_of.
           repeat match goal with
                  | |- context [if ?b then _ else _] => destruct b
                  end; eexists; reflexivity.
        -- right. left. exists req, r. split; [reflexivity|].
           split; [exact Ht|]. unfold success_envelope, body_of.
           repeat match goal with
                  | |- context [if ?b then _ else _] => destruct b
                  end; reflexivity.
      * destruct e as [message resp | m | m]; cbn [isAxiosError] in H;
          try discriminate H.
        injection H as <-. split; [eexists; reflexivity|].
        right. right. exists req, message, resp. split; [reflexivity|].
        split; [exact Ht|]. now rewrite failure_object_json.
  - unfold outcome in H. rewrite (dispatch_unknown this t name args Hout) in H.
    discriminate.
Qed.

Lemma one_text_envelope_witness :
  outcome (stub_server None) (stub_ok (JObj [("count", num 1)]))
    "search_listings" (Some [("keywords", JStr "handmade jewelry")])
  = Return (text_content (stringify (JObj [("count", num 1)])))
  /\ exists v : json,
       text_content (stringify (JObj [("count", num 1)]))
       = {| content := [ {| type := "text"; text := stringify v |} ] |}.
Proof.
  assert (H : outcome (stub_server None) (stub_ok (JObj [("count", num 1)]))
                "search_listings" (Some [("keywords", JStr "handmade jewelry")])
              = Return (text_content (stringify (JObj [("count", num 1)]))))
    by reflexivity.
  split; [exact H|].
  exact (proj1 (one_text_envelope _ _ _ _ _ H)).
Defined.

(** C9.  When the DELETE request of [delete_listing] resolves, the call
    returns the pretty-printed constant
    [{ success: true, message: "Listing deleted successfully" }] whatever
    the response; [delete_shop_section] likewise with its own message.
    With a token configured, the request is made whenever the identifiers
    of the bag convert to text.  Every other registered tool whose HTTP
    call resolves returns the pretty-printed response body. *)
Theorem delete_envelopes_constant :
  (forall (this : EtsyMCPServer) (t : transport) (args : arguments)
          (req : request) (r : response),
      In req (calls this t "delete_listing" args) ->
      t req = Resolves r ->
      method req = DELETE /\
      outcome this t "delete_listing" args
      = Return (text_content (stringify
          (JObj [("success", JBool true);
                 ("message", JStr "Listing deleted successfully")]))))
  /\ (forall (this : EtsyMCPServer) (t : transport) (args : arguments)
             (req : request) (r : response),
         In req (calls this t "delete_shop_section" args) ->
         t req = Resolves r ->
         method req = DELETE /\
         outcome this t "delete_shop_section" args
         = Return (text_content (stringify
             (JObj [("success", JBool true);
                    ("message", JStr "Shop section deleted successfully")]))))
  /\ (forall (this : EtsyMCPServer) (t : transport) (a : bag),
         present (accessToken (config this)) = true ->
         (printable a.["listing_id"] = true ->
          exists req, calls this t "delete_listing" (Some a) = [req]) /\
         (printable a.["shop_id"] = true ->
          printable a.["shop_section_id"] = true ->
          exists req, calls this t "delete_shop_section" (Some a) = [req]))
  /\ (forall (this : EtsyMCPServer) (t : transport) (name : string)
             (args : arguments) (req : request) (r : response),
         In name tool_names ->
         name <> "delete_listing" -> name <> "delete_shop_section" ->
         In req (calls this t name args) ->
         t req = Resolves r ->
         outcome this t name args
         = Return (text_content (stringify (resp_data r)))).
Proof.
  split; [|split; [|split]].
  - intros this t args req r Hreq Hr. inspect_calls Hreq.
    cbn [fst]. rewrite Hr. split; reflexivity.
  - intros this t args req r Hreq Hr. inspect_calls Hreq.
    cbn [fst]. rewrite Hr. split; reflexivity.
  - intros this t a Htok. split.
    + intro Hl.
      apply called_when_convertible;
        [simpl; tauto | intros _; exact Htok |].
      apply convertible_intro; [|discriminate].
      intros k [<- | []]. exact Hl.
    + intros Hs Hss.
      apply called_when_convertible;
        [simpl; tauto | intros _; exact Htok |].
      apply convertible_intro; [|discriminate].
      intros k [<- | [<- | []]]; assumption.
  - intros this t name args req r Hin Hn1 Hn2 Hreq Hr.
    by_shape Hin; try contradiction.
    destruct Hreq as [<- | []]. rewrite Hr. cbn [settle].
    unfold success_envelope.
    destruct (String.eqb_spec name "delete_listing"); [contradiction|].
    destruct (String.eqb_spec name "delete_shop_section"); [contradiction|].
    reflexivity.
Qed.

Lemma delete_envelopes_constant_witness :
  let this := stub_server (Some "token") in
  let body := JObj [("listing_id", num 7); ("state", JStr "removed")] in
  let t := stub_ok body in
  let req := mkRequest DELETE "/application/listings/7" None None in
  let req' := mkRequest DELETE "/application/shops/1/sections/3" None None in
  (In req (calls this t "delete_listing" (Some [("listing_id", num 7)])) /\
   method req = DELETE /\
   outcome this t "delete_listing" (Some [("listing_id", num 7)])
   = Return (text_content (stringify
       (JObj [("success", JBool true);
              ("message", JStr "Listing deleted successfully")]))))
  /\ (In req' (calls this t "delete_shop_section"
                 (Some [("shop_id", num 1); ("shop_section_id", num 3)])) /\
      outcome this t "delete_shop_section"
        (Some [("shop_id", num 1); ("shop_section_id", num 3)])
      = Return (text_content (stringify
          (JObj [("success", JBool true);
                 ("message", JStr "Shop section deleted successfully")]))))
  /\ (present (accessToken (config this)) = true /\
      printable (JS.get [("listing_id", num 7)] "listing_id") = true /\
      exists req, calls this t "delete_listing" (Some [("listing_id", num 7)]) = [req])
  /\ outcome this t "get_shop" (Some [("shop_id", num 1)])
     = Return (text_content (stringify body)).
Proof.
  intros this body t req req'.
  assert (Htok : present (accessToken (config this)) = true) by reflexivity.
  assert (Hreq : In req (calls this t "delete_listing"
                           (Some [("listing_id", num 7)])))
    by (left; reflexivity).
  assert (Hreq' : In req' (calls this t "delete_shop_section"
                             (Some [("shop_id", num 1); ("shop_section_id", num 3)])))
    by (left; reflexivity).
  assert (Hp : printable (JS.get [("listing_id", num 7)] "listing_id") = true)
    by reflexivity.
  split; [|split; [|split]].
  - split; [exact Hreq|].
    exact (proj1 delete_envelopes_constant this t _ req
             (mkResponse body 200) Hreq eq_refl).
  - split; [exact Hreq'|].
    exact (proj2 (proj1 (proj2 delete_envelopes_constant) this t _ req'
                    (mkResponse body 200) Hreq' eq_refl)).
  - split; [exact Htok|]. split; [exact Hp|].
    exact (proj1 (proj1 (proj2 (proj2 delete_envelopes_constant))
                    this t [("listing_id", num 7)] Htok) Hp).
  - refine (proj2 (proj2 (proj2 delete_envelopes_constant)) this t "get_shop"
              (Some [("shop_id", num 1)])
              (mkRequest GET "/application/shops/1" None None)
              (mkResponse body 200) _ _ _ _ eq_refl).
    + simpl; tauto.
    + discriminate.
    + discriminate.
    + left; reflexivity.
Defined.

(** C4.  [search_listings] on a bag without [limit] and [offset] makes one
    GET call whose query parameters hold [limit] 25 and [offset] 0.  Every
    request of [get_shop_listings] is a GET whose parameters hold [state]
    ["active"] when the bag has no [state], [limit] 25 when it has no
    [limit] and [offset] 0 when it has no [offset]; the request is made
    whenever [shop_id] converts to text. *)
Theorem pagination_defaults :
  (forall (this : EtsyMCPServer) (t : transport) (a : bag),
      a.["limit"] = None -> a.["offset"] = None ->
      exists req,
        calls this t "search_listings" (Some a) = [req] /\
        method req = GET /\
        param req "limit" = Some (num 25) /\
        param req "offset" = Some (num 0))
  /\ (forall (this : EtsyMCPServer) (t : transport) (a : bag) (req : request),
         In req (calls this t "get_shop_listings" (Some a)) ->
         method req = GET /\
         (a.["state"] = None -> param req "state" = Some (JStr "active")) /\
         (a.["limit"] = None -> param req "limit" = Some (num 25)) /\
         (a.["offset"] = None -> param req "offset" = Some (num 0)))
  /\ (forall (this : EtsyMCPServer) (t : transport) (a : bag),
         printable a.["shop_id"] = true ->
         exists req, calls this t "get_shop_listings" (Some a) = [req]).
Proof.
  split; [|split].
  - intros this t a Hl Ho. run_on_bag.
    eexists. split; [reflexivity|]. split; [reflexivity|].
    unfold param, assign_if_truthy. cbn [params]. rewrite Hl, Ho.
    repeat match goal with
           | |- context [truthy a.[?k]] => destruct (truthy a.[k])
           end; split; reflexivity.
  - intros this t a req Hreq. inspect_calls Hreq.
    split; [reflexivity|]. unfold param. cbn [params].
    repeat split; intros ->; reflexivity.
  - intros this t a Hp.
    apply called_when_convertible;
      [simpl; tauto | simpl; intuition discriminate |].
    apply convertible_intro; [|discriminate].
    intros k [<- | []]. exact Hp.
Qed.

Lemma pagination_defaults_witness :
  let a := [("keywords", JStr "handmade jewelry")] in
  let b := [("shop_id", num 12)] in
  let req := mkRequest GET "/application/shops/12/listings"
               (Some [("limit", Some (num 25)); ("offset", Some (num 0));
                      ("state", Some (JStr "active"))]) None in
  (a.["limit"] = None /\ a.["offset"] = None /\
   exists req,
     calls (stub_server None) (stub_ok JNull) "search_listings" (Some a) = [req] /\
     method req = GET /\
     param req "limit" = Some (num 25) /\
     param req "offset" = Some (num 0))
  /\ (In req (calls (stub_server None) (stub_ok JNull) "get_shop_listings" (Some b)) /\
      b.["state"] = None /\ b.["limit"] = None /\ b.["offset"] = None /\
      method req = GET /\
      param req "state" = Some (JStr "active") /\
      param req "limit" = Some (num 25) /\
      param req "offset" = Some (num 0))
  /\ (printable b.["shop_id"] = true /\
      exists req,
        calls (stub_server None) (stub_ok JNull) "get_shop_listings" (Some b) = [req]).
Proof.
  intros a b req.
  assert (Hl : a.["limit"] = None) by reflexivity.
  assert (Ho : a.["offset"] = None) by reflexivity.
  assert (Hbs : b.["state"] = None) by reflexivity.
  assert (Hbl : b.["limit"] = None) by reflexivity.
  assert (Hbo : b.["offset"] = None) by reflexivity.
  assert (Hreq : In req (calls (stub_server None) (stub_ok JNull)
                           "get_shop_listings" (Some b)))
    by (left; reflexivity).
  assert (Hp : printable b.["shop_id"] = true) by reflexivity.
  split; [|split].
  - split; [exact Hl|]. split; [exact Ho|].
    exact (proj1 pagination_defaults (stub_server None) (stub_ok JNull) a Hl Ho).
  - split; [exact Hreq|]. split; [exact Hbs|]. split; [exact Hbl|].
    split; [exact Hbo|].
    destruct (proj1 (proj2 pagination_defaults) (stub_server None)
                (stub_ok JNull) b req Hreq) as [Hm [Hs [Hlim Hoff]]].
    split; [exact Hm|]. split; [exact (Hs Hbs)|].
    split; [exact (Hlim Hbl) | exact (Hoff Hbo)].
  - split; [exact Hp|].
    exact (proj2 (proj2 pagination_defaults) (stub_server None)
             (stub_ok JNull) b Hp).
Defined.

(** C10.  Every request of [update_listing] is a PATCH whose body has no
    key [title], [description], [price], [quantity] or [tags] when the bag
    gives that field a falsy value (0, the empty string, [false], [null])
    or does not give it at all, and holds [shop_section_id] with the value
    of the bag whenever the bag has one, 0 and [null] included; every
    request of [update_shop] is a PUT whose body has no key [title],
    [announcement], [sale_message] or [policy_welcome] when the field is
    falsy.  With a token configured the request is made whenever the
    identifiers of the bag convert to text. *)
Theorem falsy_fields_omitted :
  (forall (this : EtsyMCPServer) (t : transport) (a : bag) (req : request),
      In req (calls this t "update_listing" (Some a)) ->
      method req = PATCH /\
      exists d,
        data req = Some d /\
        (forall k,
            In k ["title"; "description"; "price"; "quantity"; "tags"] ->
            truthy a.[k] = false -> has_key k d = false) /\
        (forall v, a.["shop_section_id"] = Some v ->
                   assoc "shop_section_id" d = Some (Some v)))
  /\ (forall (this : EtsyMCPServer) (t : transport) (a : bag) (req : request),
         In req (calls this t "update_shop" (Some a)) ->
         method req = PUT /\
         exists d,
           data req = Some d /\
           (forall k,
               In k ["title"; "announcement"; "sale_message"; "policy_welcome"] ->
               truthy a.[k] = false -> has_key k d = false))
  /\ (forall (this : EtsyMCPServer) (t : transport) (a : bag),
         present (accessToken (config this)) = true ->
         printable a.["shop_id"] = true ->
         (printable a.["listing_id"] = true ->
          exists req, calls this t "update_listing" (Some a) = [req]) /\
         (exists req, calls this t "update_shop" (Some a) = [req])).
Proof.
  split; [|split].
  - intros this t a req Hreq. inspect_calls Hreq.
    split; [reflexivity|]. eexists. split; [reflexivity|]. split.
    + intros k Hk Hf. known_tool Hk.
      all: unfold assign_if_truthy at 1 2 3 4 5; rewrite Hf;
        split_truthy; reflexivity.
    + intros v Hv. rewrite Hv. split_truthy; reflexivity.
  - intros this t a req Hreq. inspect_calls Hreq.
    split; [reflexivity|]. eexists. split; [reflexivity|].
    intros k Hk Hf. known_tool Hk.
    all: unfold assign_if_truthy at 1 2 3 4; rewrite Hf;
      split_truthy; reflexivity.
  - intros this t a Htok Hs. split.
    + intro Hl.
      apply called_when_convertible;
        [simpl; tauto | intros _; exact Htok |].
      apply convertible_intro; [|discriminate].
      intros k [<- | [<- | []]]; assumption.
    + apply called_when_convertible;
        [simpl; tauto | intros _; exact Htok |].
      apply convertible_intro; [|discriminate].
      intros k [<- | []]. exact Hs.
Qed.

Lemma falsy_fields_omitted_witness :
  let this := stub_server (Some "token") in
  let a := [("shop_id", num 1); ("listing_id", num 2); ("price", num 0);
            ("title", JStr EmptyString); ("shop_section_id", num 0)] in
  let b := [("shop_id", num 1); ("announcement", JStr EmptyString);
            ("title", JStr "Mugs and more")] in
  let req := mkRequest PATCH "/application/shops/1/listings/2" None
               (Some [("shop_section_id", Some (num 0))]) in
  let req' := mkRequest PUT "/application/shops/1" None
                (Some [("title", Some (JStr "Mugs and more"))]) in
  (In req (calls this (stub_ok JNull) "update_listing" (Some a)) /\
   truthy a.["price"] = false /\ truthy a.["title"] = false /\
   a.["shop_section_id"] = Some (num 0) /\
   method req = PATCH /\
   exists d,
     data req = Some d /\
     has_key "price" d = false /\ has_key "title" d = false /\
     assoc "shop_section_id" d = Some (Some (num 0)))
  /\ (In req' (calls this (stub_ok JNull) "update_shop" (Some b)) /\
      truthy b.["announcement"] = false /\
      method req' = PUT /\
      exists d, data req' = Some d /\ has_key "announcement" d = false)
  /\ (present (accessToken (config this)) = true /\
      printable a.["shop_id"] = true /\ printable a.["listing_id"] = true /\
      exists req, calls this (stub_ok JNull) "update_listing" (Some a) = [req]).
Proof.
  intros this a b req req'.
  assert (Htok : present (accessToken (config this)) = true) by reflexivity.
  assert (Hreq : In req (calls this (stub_ok JNull) "update_listing" (Some a)))
    by (left; reflexivity).
  assert (Hreq' : In req' (calls this (stub_ok JNull) "update_shop" (Some b)))
    by (left; reflexivity).
  assert (Hp : truthy a.["price"] = false) by reflexivity.
  assert (Ht : truthy a.["title"] = false) by reflexivity.
  assert (Hs : a.["shop_section_id"] = Some (num 0)) by reflexivity.
  assert (Ha : truthy b.["announcement"] = false) by reflexivity.
  assert (Hps : printable a.["shop_id"] = true) by reflexivity.
  assert (Hpl : printable a.["listing_id"] = true) by reflexivity.
  split; [|split].
  - split; [exact Hreq|]. split; [exact Hp|]. split; [exact Ht|].
    split; [exact Hs|].
    destruct (proj1 falsy_fields_omitted this (stub_ok JNull) a req Hreq)
      as [Hm [d [Hd [Hfalsy Hsection]]]].
    split; [exact Hm|]. exists d. split; [exact Hd|]. split; [|split].
    + apply (Hfalsy "price"); [simpl; tauto | exact Hp].
    + apply (Hfalsy "title"); [simpl; tauto | exact Ht].
    + exact (Hsection (num 0) Hs).
  - split; [exact Hreq'|]. split; [exact Ha|].
    destruct (proj1 (proj2 falsy_fields_omitted) this (stub_ok JNull) b req' Hreq')
      as [Hm [d [Hd Hfalsy]]].
    split; [exact Hm|]. exists d. split; [exact Hd|].
    apply (Hfalsy "announcement"); [simpl; tauto | exact Ha].
  - split; [exact Htok|]. split; [exact Hps|]. split; [exact Hpl|].
    exact (proj1 (proj2 (proj2 falsy_fields_omitted) this (stub_ok JNull) a
                    Htok Hps) Hpl).
Defined.

(** C5, as written, fails twice: a price of 0 is not sent at all, and an
    absent [limit] is sent with its default. *)
Lemma price_alone_counterexample :
  ~ price_alone_always_sent /\ ~ absent_optional_never_sent.
Proof.
  split.
  - intro H.
    destruct (H (stub_server (Some "token")) (stub_ok JNull)
                [("shop_id", num 1); ("listing_id", num 2); ("price", num 0)]
                (num 0) eq_refl eq_refl eq_refl eq_refl eq_refl eq_refl eq_refl)
      as [req [Hcalls [_ Hdata]]].
    injection Hcalls as <-. discriminate Hdata.
  - intro H.
    assert (Hs : sent "limit"
                   (mkRequest GET "/application/listings/active"
                      (Some [("keywords", Some (JStr "ring"));
                             ("limit", Some (num 25));
                             ("offset", Some (num 0))]) None) = false).
    { apply (H (stub_server None) (stub_ok JNull)
               (mkTool "search_listings"
                  ["keywords"; "limit"; "offset"; "min_price"; "max_price";
                   "sort_on"; "sort_order"] ["keywords"])
               "limit" [("keywords", JStr "ring")]).
      - left; reflexivity.
      - simpl; tauto.
      - reflexivity.
      - left; reflexivity. }
    discriminate Hs.
Qed.

(** C5, amended.  With a token configured, every request of
    [update_listing] on a bag that sets a truthy [price] and none of the
    other optional fields is a PATCH whose body is exactly [{ price }]
    with the value of the bag, and the request is made whenever [shop_id]
    and [listing_id] convert to text.  For every registered tool, an
    optional field that is absent from the bag and is not one of the
    defaulted fields [limit], [offset], [state] is a key of neither the
    query parameters nor the body of any request made. *)
Theorem optional_fields_sent_when_set :
  (forall (this : EtsyMCPServer) (t : transport) (a : bag) (p : json),
      present (accessToken (config this)) = true ->
      a.["price"] = Some p -> truthy (Some p) = true ->
      a.["title"] = None -> a.["description"] = None ->
      a.["quantity"] = None -> a.["tags"] = None ->
      a.["shop_section_id"] = None ->
      (forall req,
          In req (calls this t "update_listing" (Some a)) ->
          method req = PATCH /\
          data req = Some [("price", Some p)]) /\
      (printable a.["shop_id"] = true -> printable a.["listing_id"] = true ->
       exists req, calls this t "update_listing" (Some a) = [req]))
  /\ (forall (this : EtsyMCPServer) (t : transport) (tl : Tool) (k : string)
             (a : bag) (req : request),
         In tl getTools -> In k (optional_fields tl) ->
         ~ In k defaulted_fields ->
         a.[k] = None ->
         In req (calls this t (name tl) (Some a)) ->
         sent k req = false).
Proof.
  split.
  - intros this t a p Htok Hp Htruthy Ht Hd Hq Htags Hs. split.
    + intros req Hreq. inspect_calls Hreq. split; [reflexivity|].
      cbn [data]. unfold assign_if_truthy, assign_if_defined.
      rewrite Hp, Ht, Hd, Hq, Htags, Hs, Htruthy. reflexivity.
    + intros Hps Hpl.
      apply called_when_convertible;
        [simpl; tauto | intros _; exact Htok |].
      apply convertible_intro; [|discriminate].
      intros k [<- | [<- | []]]; assumption.
  - intros this t tl k a req Htl Hk Hdef Habsent Hreq.
    known_tool Htl.
    all: cbn [name] in Hreq; known_tool Hk.
    all: try (exfalso; apply Hdef; simpl; tauto).
    all: revert Hreq; enter_handler; cbn [negb read]; rewrite ?bind_ret;
      repeat step_handler.
    all: first [ rewrite try_http | rewrite try_ret
               | rewrite try_throw by reflexivity ]; cbn [snd].
    all: intro Hreq; cbn [In] in Hreq; try contradiction.
    all: destruct Hreq as [<- | []].
    all: try congruence.
    all: unfold sent; cbn [params data];
      unfold assign_if_truthy, assign_if_defined; rewrite ?Habsent;
      split_truthy; reflexivity.
Qed.

Lemma optional_fields_sent_when_set_witness :
  let this := stub_server (Some "token") in
  let a := [("shop_id", num 1); ("listing_id", num 2);
            ("price", JNum (Dec "19.99"))] in
  let update_listing :=
    mkTool "update_listing"
      ["shop_id"; "listing_id"; "title"; "description"; "price"; "quantity";
       "tags"; "shop_section_id"]
      ["shop_id"; "listing_id"] in
  let req := mkRequest PATCH "/application/shops/1/listings/2" None
               (Some [("price", Some (JNum (Dec "19.99")))]) in
  present (accessToken (config this)) = true /\
  a.["price"] = Some (JNum (Dec "19.99")) /\
  truthy (Some (JNum (Dec "19.99"))) = true /\
  In req (calls this (stub_ok JNull) "update_listing" (Some a)) /\
  (method req = PATCH /\
   data req = Some [("price", Some (JNum (Dec "19.99")))])
  /\ (printable a.["shop_id"] = true /\ printable a.["listing_id"] = true /\
      exists req, calls this (stub_ok JNull) "update_listing" (Some a) = [req])
  /\ (In update_listing getTools /\
      In "tags" (optional_fields update_listing) /\
      ~ In "tags" defaulted_fields /\
      a.["tags"] = None /\
      sent "tags" req = false).
Proof.
  intros this a update_listing req.
  assert (Htok : present (accessToken (config this)) = true) by reflexivity.
  assert (Htl : In update_listing getTools) by (simpl; tauto).
  assert (Hk : In "tags" (optional_fields update_listing)) by (simpl; tauto).
  assert (Hdef : ~ In "tags" defaulted_fields) by (simpl; intuition discriminate).
  assert (Habsent : a.["tags"] = None) by reflexivity.
  assert (Hreq : In req (calls this (stub_ok JNull) (name update_listing) (Some a)))
    by (left; reflexivity).
  assert (Hps : printable a.["shop_id"] = true) by reflexivity.
  assert (Hpl : printable a.["listing_id"] = true) by reflexivity.
  pose proof (proj1 optional_fields_sent_when_set this (stub_ok JNull) a
                (JNum (Dec "19.99")) Htok eq_refl eq_refl eq_refl eq_refl
                eq_refl eq_refl eq_refl) as [Hbody Hmade].
  split; [exact Htok|]. split; [reflexivity|]. split; [reflexivity|].
  split; [exact Hreq|]. split; [exact (Hbody req Hreq)|]. split.
  - split; [exact Hps|]. split; [exact Hpl|]. exact (Hmade Hps Hpl).
  - split; [exact Htl|]. split; [exact Hk|]. split; [exact Hdef|].
    split; [exact Habsent|].
    exact (proj2 optional_fields_sent_when_set this (stub_ok JNull)
             update_listing "tags" a req Htl Hk Hdef Habsent Hreq).
Defined.

(** C7, as written, fails: [get_listing] on a bag whose [includes] is a
    string throws a [TypeError] from [args.includes?.join] before any HTTP
    call. *)
Lemma read_one_call_counterexample : ~ read_always_one_call.
Proof.
  intro H.
  assert (Hin : In "get_listing" read_tools) by (simpl; tauto).
  specialize (H (stub_server None) (stub_ok JNull) "get_listing"
                [("listing_id", num 1); ("includes", JStr "Images")] Hin).
  discriminate H.
Qed.

(** C7, amended.  A read tool called on a bag makes exactly one HTTP call,
    whatever the server's token, provided that the conversions to text of
    its handler succeed: the identifier it puts in the path converts, and
    for [get_listing] the [includes] of the bag is absent, [null] or an
    array whose elements convert.  When one of them fails, the call throws
    a [TypeError] and makes no request.  A read tool never consults the
    configuration: two servers give the same result and the same calls on
    every input. *)
Theorem read_one_call :
  (forall (this : EtsyMCPServer) (t : transport) (name : string) (a : bag),
      In name read_tools ->
      (forall k, In k (path_fields name) -> printable a.[k] = true) ->
      (name = "get_listing" -> includes_joinable a = true) ->
      List.length (calls this t name (Some a)) = 1%nat)
  /\ (forall (this : EtsyMCPServer) (t : transport) (name : string) (a : bag),
         In name read_tools ->
         (exists k, In k (path_fields name) /\ printable a.[k] = false)
         \/ (name = "get_listing" /\ includes_joinable a = false) ->
         exists m, dispatch this t name (Some a) = (Throw (TypeError m), []))
  /\ (forall (this this' : EtsyMCPServer) (t : transport) (name : string)
             (args : arguments),
         In name read_tools ->
         dispatch this t name args = dispatch this' t name args).
Proof.
  split; [|split].
  - intros this t name a Hin Hp Hjoin.
    destruct (called_when_convertible this t name a (read_are_tools name Hin))
      as [req ->]; [ | now apply convertible_intro | reflexivity ].
    intro Hm. exfalso. known_tool Hin; simpl in Hm; intuition discriminate.
  - intros this t name a Hin Hbad.
    apply thrown_when_not_convertible; [now apply read_are_tools | | ].
    + intro Hm. exfalso. known_tool Hin; simpl in Hm; intuition discriminate.
    + destruct Hbad as [[k [Hk Hp]] | [-> Hj]].
      * now apply (not_convertible_intro name k).
      * unfold convertible. cbn [String.eqb Ascii.eqb Bool.eqb].
        rewrite Hj. apply andb_false_r.
  - intros this this' t name args Hin. known_tool Hin; reflexivity.
Qed.

Lemma read_one_call_witness :
  let a := [("listing_id", num 1); ("includes", JArr [JStr "Images"; JStr "Shop"])] in
  let b := [("shop_id", JObj [("toString", num 1)])] in
  In "get_listing" read_tools /\
  (forall k, In k (path_fields "get_listing") -> printable a.[k] = true) /\
  includes_joinable a = true /\
  List.length (calls (stub_server None) (stub_ok JNull) "get_listing" (Some a))
  = 1%nat /\
  (In "shop_id" (path_fields "get_shop") /\ printable b.["shop_id"] = false /\
   exists m,
     dispatch (stub_server None) (stub_ok JNull) "get_shop" (Some b)
     = (Throw (TypeError m), [])) /\
  dispatch (stub_server None) (stub_ok JNull) "get_listing" (Some a)
  = dispatch (stub_server (Some "token")) (stub_ok JNull) "get_listing" (Some a).
Proof.
  intros a b.
  assert (Hin : In "get_listing" read_tools) by (simpl; tauto).
  assert (Hin' : In "get_shop" read_tools) by (simpl; tauto).
  assert (Hp : forall k, In k (path_fields "get_listing") -> printable a.[k] = true).
  { intros k [<- | []]. reflexivity. }
  assert (Hk : In "shop_id" (path_fields "get_shop")) by (left; reflexivity).
  assert (Hbad : printable b.["shop_id"] = false) by reflexivity.
  split; [exact Hin|]. split; [exact Hp|]. split; [reflexivity|]. split; [|split].
  - exact (proj1 read_one_call (stub_server None) (stub_ok JNull) "get_listing" a
             Hin Hp (fun _ => eq_refl)).
  - split; [exact Hk|]. split; [exact Hbad|].
    exact (proj1 (proj2 read_one_call) (stub_server None) (stub_ok JNull)
             "get_shop" b Hin'
             (or_introl (ex_intro _ "shop_id" (conj Hk Hbad)))).
  - exact (proj2 (proj2 read_one_call) (stub_server None)
             (stub_server (Some "token")) (stub_ok JNull) "get_listing"
             (Some a) Hin).
Defined.

(** C6.  [createServer] takes each credential from the configuration
    object when it gives a non-empty one and from the environment variable
    otherwise.  When the key so resolved is absent or empty it throws and
    returns no server; otherwise it returns a server whose configuration
    holds the three resolved credentials. *)
Theorem createServer_credentials
    (cfg : option SmitheryConfig) (env : environment) :
  let explicit (f : SmitheryConfig -> option string) :=
    match cfg with Some c => f c | None => None end in
  let resolved (f : SmitheryConfig -> option string) (var : string) :=
    if present (explicit f) then explicit f else env var in
  let key := resolved (fun c => Some (cfg_apiKey c)) "ETSY_API_KEY" in
  (present key = false ->
     createServer cfg env
     = Throw (Error "ETSY_API_KEY is required. Provide it via config or environment variable.")
     /\ forall server, createServer cfg env <> Return server)
  /\ (present key = true ->
      exists server,
        createServer cfg env = Return server /\
        Some (apiKey (config server)) = key /\
        shopId (config server) = resolved cfg_shopId "ETSY_SHOP_ID" /\
        accessToken (config server) = resolved cfg_accessToken "ETSY_ACCESS_TOKEN").
Proof.
  cbv zeta. unfold createServer, or_string.
  destruct cfg as [[k s tk]|]; cbn [option_map cfg_apiKey cfg_shopId cfg_accessToken].
  - destruct k as [|c k].
    + cbn [present string_is_empty negb].
      destruct (env "ETSY_API_KEY") as [[|c k]|]; cbn; split; intro H;
        try discriminate H.
      * split; [reflexivity | intros server Hs; discriminate Hs].
      * eexists; repeat split; reflexivity.
      * split; [reflexivity | intros server Hs; discriminate Hs].
    + cbn. split; intro H; try discriminate H.
      eexists; repeat split; reflexivity.
  - cbn [present].
    destruct (env "ETSY_API_KEY") as [[|c k]|]; cbn; split; intro H;
      try discriminate H.
    + split; [reflexivity | intros server Hs; discriminate Hs].
    + eexists; repeat split; reflexivity.
    + split; [reflexivity | intros server Hs; discriminate Hs].
Qed.

Lemma createServer_credentials_witness :
  let env : environment :=
    fun var => if var =? "ETSY_ACCESS_TOKEN" then Some "token" else None in
  (present (env "ETSY_API_KEY") = false /\
   createServer None env
   = Throw (Error "ETSY_API_KEY is required. Provide it via config or environment variable."))
  /\ (present (Some "key") = true /\
      exists server,
        createServer (Some (mkSmitheryConfig "key" None None)) env = Return server /\
        Some (apiKey (config server)) = Some "key" /\
        shopId (config server) = None /\
        accessToken (config server) = Some "token").
Proof.
  intro env. split.
  - assert (H : present (env "ETSY_API_KEY") = false) by reflexivity.
    split; [exact H|].
    exact (proj1 (proj1 (createServer_credentials None env) H)).
  - assert (H : present (Some "key") = true) by reflexivity.
    split; [exact H|].
    exact (proj2 (createServer_credentials
                    (Some (mkSmitheryConfig "key" None None)) env) H).
Defined.

(* ================================================================== *)
(** ** Further properties of the dispatcher *)
(* ================================================================== *)

Lemma calls_unknown (this : EtsyMCPServer) (t : transport)
    (name : string) (args : arguments) :
  ~ In name tool_names -> calls this t name args = [].
Proof.
  intro H. unfold calls. now rewrite (dispatch_unknown this t name args H).
Qed.

Lemma mem_management (name : string) :
  In name management_tools -> mem name management_tools = true.
Proof. intro H. known_tool H; reflexivity. Qed.

Lemma refused_without_token (this : EtsyMCPServer) (t : transport)
    (name : string) (args : arguments) :
  In name management_tools ->
  present (accessToken (config this)) = false ->
  dispatch this t name args = (Return oauth_required, []).
Proof.
  intros Hin Htok. known_tool Hin.
  all: enter_handler; rewrite Htok; cbn [negb]; now rewrite try_ret.
Qed.


(** X1.  Whatever the name, the arguments, the server and the transport,
    a tool call makes at most one HTTP request. *)
Theorem at_most_one_call
    (this : EtsyMCPServer) (t : transport) (name : string) (args : arguments) :
  (List.length (calls this t name args) <= 1)%nat.
Proof.
  destruct (in_dec string_dec name tool_names) as [Hin | Hout].
  - by_shape Hin; cbn [List.length]; lia.
  - rewrite (calls_unknown this t name args Hout). cbn [List.length]. lia.
Qed.

(** X2.  The requests of a tool call are decided before any response is
    seen: two transports see the same requests, so a failed call is never
    made again. *)
Theorem calls_independent_of_transport
    (this : EtsyMCPServer) (t t' : transport) (name : string) (args : arguments) :
  calls this t name args = calls this t' name args.
Proof.
  destruct (in_dec string_dec name tool_names) as [Hin | Hout].
  - known_tool Hin.
    all: enter_handler; cbn [negb read]; rewrite ?bind_ret; repeat step_handler.
    all: repeat first [ rewrite try_http | rewrite try_ret
                      | rewrite try_throw by reflexivity ]; reflexivity.
  - now rewrite !calls_unknown.
Qed.

(** X3.  With a token configured, a management tool called on a bag makes
    exactly one HTTP request when every identifier that its handler puts in
    the path converts to text, and throws a [TypeError] without any request
    when one of them does not. *)
Theorem management_with_token_calls_once
    (this : EtsyMCPServer) (t : transport) (name : string) (a : bag) :
  In name management_tools ->
  present (accessToken (config this)) = true ->
  ((forall k, In k (path_fields name) -> printable a.[k] = true) ->
   List.length (calls this t name (Some a)) = 1%nat)
  /\ (forall k, In k (path_fields name) -> printable a.[k] = false ->
      exists m, dispatch this t name (Some a) = (Throw (TypeError m), [])).
Proof.
  intros Hin Htok. split.
  - intro Hp.
    destruct (called_when_convertible this t name a
                (management_are_tools name Hin) (fun _ => Htok)) as [req ->];
      [|reflexivity].
    apply convertible_intro; [exact Hp|].
    intros ->. exfalso. simpl in Hin. intuition discriminate.
  - intros k Hk Hp.
    apply thrown_when_not_convertible;
      [now apply management_are_tools | intros _; exact Htok |].
    now apply (not_convertible_intro name k).
Qed.

Lemma management_with_token_calls_once_witness :
  let this := stub_server (Some "token") in
  let a := [("shop_id", num 1)] in
  let b := [("shop_id", JObj [("toString", num 1)])] in
  In "update_shop" management_tools /\
  present (accessToken (config this)) = true /\
  (forall k, In k (path_fields "update_shop") -> printable a.[k] = true) /\
  List.length (calls this (stub_fail not_found) "update_shop" (Some a)) = 1%nat /\
  In "shop_id" (path_fields "update_shop") /\
  printable b.["shop_id"] = false /\
  exists m,
    dispatch this (stub_fail not_found) "update_shop" (Some b)
    = (Throw (TypeError m), []).
Proof.
  intros this a b.
  assert (Hin : In "update_shop" management_tools) by (simpl; tauto).
  assert (Htok : present (accessToken (config this)) = true) by reflexivity.
  assert (Hp : forall k, In k (path_fields "update_shop") -> printable a.[k] = true).
  { intros k [<- | []]. reflexivity. }
  assert (Hk : In "shop_id" (path_fields "update_shop")) by (left; reflexivity).
  assert (Hbad : printable b.["shop_id"] = false) by reflexivity.
  split; [exact Hin|]. split; [exact Htok|]. split; [exact Hp|]. split.
  - exact (proj1 (management_with_token_calls_once this (stub_fail not_found)
                    "update_shop" a Hin Htok) Hp).
  - split; [exact Hk|]. split; [exact Hbad|].
    exact (proj2 (management_with_token_calls_once this (stub_fail not_found)
                    "update_shop" b Hin Htok) "shop_id" Hk Hbad).
Defined.

(** X4.  A read tool only ever issues a GET without a body; a management
    tool never issues a GET and never sends query parameters. *)
Theorem verbs_by_kind
    (this : EtsyMCPServer) (t : transport) (name : string) (args : arguments)
    (req : request) :
  In req (calls this t name args) ->
  (In name read_tools -> method req = GET /\ data req = None) /\
  (In name management_tools -> method req <> GET /\ params req = None).
Proof.
  intro Hreq. split; intro Hin; known_tool Hin.
  all: inspect_calls Hreq; split; first [reflexivity | discriminate].
Qed.

Lemma verbs_by_kind_witness :
  let req := mkRequest PUT "/application/shops/1/sections/3" None
               (Some [("title", Some (JStr "Mugs"))]) in
  let args := Some [("shop_id", num 1); ("shop_section_id", num 3);
                    ("title", JStr "Mugs")] in
  In req (calls (stub_server (Some "token")) (stub_ok JNull)
            "update_shop_section" args) /\
  In "update_shop_section" management_tools /\
  method req <> GET /\ params req = None.
Proof.
  intros req args.
  assert (Hreq : In req (calls (stub_server (Some "token")) (stub_ok JNull)
                           "update_shop_section" args)) by (left; reflexivity).
  assert (Hin : In "update_shop_section" management_tools) by (simpl; tauto).
  split; [exact Hreq|]. split; [exact Hin|].
  exact (proj2 (verbs_by_kind _ _ _ _ req Hreq) Hin).
Defined.

(** X5.  Every request goes to a path under [/application/]. *)
Theorem paths_under_application
    (this : EtsyMCPServer) (t : transport) (name : string) (args : arguments)
    (req : request) :
  In req (calls this t name args) ->
  String.prefix "/application/" (url req) = true.
Proof.
  intro Hreq.
  destruct (in_dec string_dec name tool_names) as [Hin | Hout].
  - known_tool Hin.
    all: inspect_calls Hreq; reflexivity.
  - rewrite (calls_unknown this t name args Hout) in Hreq. contradiction.
Qed.

Lemma paths_under_application_witness :
  let req := mkRequest GET "/application/shops/undefined/sections" None None in
  In req (calls (stub_server None) (stub_ok JNull) "get_shop_sections" (Some []))
  /\ String.prefix "/application/" (url req) = true.
Proof.
  intro req.
  assert (Hreq : In req (calls (stub_server None) (stub_ok JNull)
                           "get_shop_sections" (Some []))) by (left; reflexivity).
  split; [exact Hreq|].
  exact (paths_under_application _ _ _ _ req Hreq).
Defined.

(** X6.  A registered tool throws only in two ways: a [TypeError] raised
    before any HTTP request, or the error with which the transport rejected
    its one request when that error is not an axios error. *)
Theorem throws_of_registered_tool
    (this : EtsyMCPServer) (t : transport) (name : string) (args : arguments)
    (e : exn) :
  In name tool_names ->
  outcome this t name args = Throw e ->
  (exists m, e = TypeError m /\ calls this t name args = [])
  \/ (exists req, calls this t name args = [req] /\
                  t req = Rejects e /\ isAxiosError e = false).
Proof.
  intros Hin H. by_shape Hin.
  - discriminate H.
  - injection H as <-. left. eexists. split; reflexivity.
  - right. exists req. split; [reflexivity|].
    destruct (t req) as [r | e']; cbn [settle] in H; [discriminate H|].
    destruct (isAxiosError e') eqn:Hax; [discriminate H|].
    injection H as <-. split; [reflexivity | exact Hax].
Qed.

Lemma throws_of_registered_tool_witness :
  let e := Error "socket hang up" in
  let req := mkRequest GET "/application/shops/3" None None in
  In "get_shop" tool_names /\
  outcome (stub_server None) (stub_fail e) "get_shop" (Some [("shop_id", num 3)])
  = Throw e /\
  ((exists m, e = TypeError m /\
              calls (stub_server None) (stub_fail e) "get_shop"
                (Some [("shop_id", num 3)]) = [])
   \/ (exists req,
          calls (stub_server None) (stub_fail e) "get_shop"
            (Some [("shop_id", num 3)]) = [req] /\
          stub_fail e req = Rejects e /\ isAxiosError e = false)).
Proof.
  intros e req.
  assert (Hin : In "get_shop" tool_names) by (simpl; tauto).
  assert (H : outcome (stub_server None) (stub_fail e) "get_shop"
                (Some [("shop_id", num 3)]) = Throw e) by reflexivity.
  split; [exact Hin|]. split; [exact H|].
  exact (throws_of_registered_tool _ _ _ _ e Hin H).
Defined.

(** X7.  The switch and the registry agree: a call ends with
    [Error "Unknown tool: <name>"] and no request exactly when [getTools]
    does not list the name. *)
Theorem unknown_exactly_when_unlisted
    (this : EtsyMCPServer) (t : transport) (name : string) (args : arguments) :
  dispatch this t name args = (Throw (Error ("Unknown tool: " ++ name)), [])
  <-> ~ In name tool_names.
Proof.
  split.
  - intros H Hin.
    pose proof (dispatch_shape this t name args Hin) as S.
    rewrite H in S. inversion S.
  - apply dispatch_unknown.
Qed.

(** X8.  A registered tool called without [arguments] throws a [TypeError]
    and makes no request, unless it is a management tool on a server
    without token, which refuses first. *)
Theorem undefined_arguments_throw
    (this : EtsyMCPServer) (t : transport) (name : string) :
  In name tool_names ->
  (In name management_tools -> present (accessToken (config this)) = true) ->
  exists m, dispatch this t name None = (Throw (TypeError m), []).
Proof.
  intros Hin Htok. known_tool Hin.
  all: enter_handler; try (rewrite Htok by (simpl; tauto));
    cbn [negb read]; rewrite bind_throw; rewrite try_throw by reflexivity;
    eexists; reflexivity.
Qed.

Lemma undefined_arguments_throw_witness :
  In "get_trending_listings" tool_names /\
  (In "get_trending_listings" management_tools ->
   present (accessToken (config (stub_server None))) = true) /\
  exists m,
    dispatch (stub_server None) (stub_ok JNull) "get_trending_listings" None
    = (Throw (TypeError m), []).
Proof.
  assert (Hin : In "get_trending_listings" tool_names) by (simpl; tauto).
  assert (Htok : In "get_trending_listings" management_tools ->
                 present (accessToken (config (stub_server None))) = true)
    by (simpl; intuition discriminate).
  split; [exact Hin|]. split; [exact Htok|].
  exact (undefined_arguments_throw _ (stub_ok JNull) _ Hin Htok).
Defined.

(** X9.  Every request of the five paginated tools forwards a truthy
    [limit] or [offset] unchanged and replaces a falsy one, 0 included, by
    25 and 0; the request is made whenever the identifier in the path, if
    the tool has one, converts to text. *)
Theorem pagination_of_falsy
    (this : EtsyMCPServer) (t : transport) (name : string) (a : bag) :
  In name ["search_listings"; "get_shop_listings"; "search_shops";
           "get_trending_listings"; "find_shops"] ->
  (forall req,
      In req (calls this t name (Some a)) ->
      param req "limit" = (if truthy a.["limit"] then a.["limit"] else Some (num 25)) /\
      param req "offset" = (if truthy a.["offset"] then a.["offset"] else Some (num 0)))
  /\ ((forall k, In k (path_fields name) -> printable a.[k] = true) ->
      exists req, calls this t name (Some a) = [req]).
Proof.
  intro Hin. split.
  - intros req Hreq. known_tool Hin.
    all: inspect_calls Hreq.
    all: unfold param; cbn [params]; split_truthy_eq; split; reflexivity.
  - intro Hp.
    apply called_when_convertible.
    + simpl in Hin. simpl. tauto.
    + intro Hm. exfalso. known_tool Hin; simpl in Hm; intuition discriminate.
    + apply convertible_intro; [exact Hp|].
      intros ->. exfalso. simpl in Hin. intuition discriminate.
Qed.

Lemma pagination_of_falsy_witness :
  let a := [("shop_name", JStr "mugs"); ("limit", num 0); ("offset", num 50)] in
  let req := mkRequest GET "/application/shops"
               (Some [("shop_name", Some (JStr "mugs")); ("limit", Some (num 25));
                      ("offset", Some (num 50))]) None in
  In "search_shops" ["search_listings"; "get_shop_listings"; "search_shops";
                     "get_trending_listings"; "find_shops"] /\
  In req (calls (stub_server None) (stub_ok JNull) "search_shops" (Some a)) /\
  param req "limit" = Some (num 25) /\
  param req "offset" = Some (num 50) /\
  (forall k, In k (path_fields "search_shops") -> printable a.[k] = true) /\
  exists req, calls (stub_server None) (stub_ok JNull) "search_shops" (Some a) = [req].
Proof.
  intros a req.
  assert (Hin : In "search_shops" ["search_listings"; "get_shop_listings";
                                   "search_shops"; "get_trending_listings";
                                   "find_shops"]) by (simpl; tauto).
  assert (Hreq : In req (calls (stub_server None) (stub_ok JNull)
                           "search_shops" (Some a))) by (left; reflexivity).
  assert (Hp : forall k, In k (path_fields "search_shops") -> printable a.[k] = true).
  { intros k []. }
  pose proof (pagination_of_falsy (stub_server None) (stub_ok JNull)
                "search_shops" a Hin) as [Hparams Hmade].
  split; [exact Hin|]. split; [exact Hreq|].
  split; [exact (proj1 (Hparams req Hreq))|].
  split; [exact (proj2 (Hparams req Hreq))|].
  split; [exact Hp | exact (Hmade Hp)].
Defined.

(** X10.  [search_listings] always hands [keywords] over as the bag has it,
    and hands over each of [min_price], [max_price], [sort_on] and
    [sort_order] exactly when the bag gives it a truthy value: a
    [min_price] of 0 is left out of the query. *)
Theorem search_filters
    (this : EtsyMCPServer) (t : transport) (a : bag) :
  exists req,
    calls this t "search_listings" (Some a) = [req] /\
    url req = "/application/listings/active" /\
    param req "keywords" = a.["keywords"] /\
    forall k, In k ["min_price"; "max_price"; "sort_on"; "sort_order"] ->
      (truthy a.[k] = true -> param req k = a.[k]) /\
      (truthy a.[k] = false -> sent k req = false).
Proof.
  run_on_bag. eexists. split; [reflexivity|]. split; [reflexivity|].
  unfold param, sent. cbn [params data]. split.
  - split_truthy_eq; reflexivity.
  - intros k Hk. known_tool Hk.
    all: split; intro Hguard; split_truthy_eq; try reflexivity; congruence.
Qed.

Lemma search_filters_witness :
  let a := [("keywords", JStr "ring"); ("min_price", num 0);
            ("sort_on", JStr "price")] in
  truthy a.["sort_on"] = true /\ truthy a.["min_price"] = false /\
  exists req,
    calls (stub_server None) (stub_ok JNull) "search_listings" (Some a) = [req] /\
    param req "sort_on" = Some (JStr "price") /\
    sent "min_price" req = false.
Proof.
  intro a.
  assert (Hs : truthy a.["sort_on"] = true) by reflexivity.
  assert (Hm : truthy a.["min_price"] = false) by reflexivity.
  split; [exact Hs|]. split; [exact Hm|].
  destruct (search_filters (stub_server None) (stub_ok JNull) a)
    as [req [Hc [_ [_ Hf]]]].
  exists req. split; [exact Hc|]. split.
  - apply (proj1 (Hf "sort_on" ltac:(simpl; tauto)) Hs).
  - apply (proj2 (Hf "min_price" ltac:(simpl; tauto)) Hm).
Defined.

(** X11.  [get_listing] with an array as [includes]: when the elements
    convert to text, and [listing_id] does, the call makes one GET to
    [/application/listings/<listing_id>] whose one query parameter is
    [includes], the elements joined by commas, and sends no parameter at
    all when the joined text is empty, as for the empty array; when an
    element does not convert, the call throws a [TypeError] and makes no
    request. *)
Theorem includes_joined
    (this : EtsyMCPServer) (t : transport) (a : bag) (items : list json) :
  a.["includes"] = Some (JArr items) ->
  (forall joined path,
      JS.join "," items = Some joined ->
      interpolate a.["listing_id"] = Some path ->
      calls this t "get_listing" (Some a)
      = [mkRequest GET ("/application/listings/" ++ path)
           (Some (if string_is_empty joined then []
                  else [("includes", Some (JStr joined))]))
           None])
  /\ (JS.join "," items = None ->
      dispatch this t "get_listing" (Some a)
      = (Throw (TypeError "Cannot convert object to primitive value"), [])).
Proof.
  intro H. split.
  - intros joined path Hj Hp. enter_handler. cbn [read].
    rewrite bind_ret, H, Hj. cbn [converted]. rewrite !bind_ret, Hp.
    cbn [converted]. rewrite bind_ret, try_http.
    cbn [snd truthy]. now destruct (string_is_empty joined).
  - intro Hj. enter_handler. cbn [read].
    rewrite bind_ret, H, Hj. cbn [converted]. rewrite !bind_throw.
    now rewrite try_throw.
Qed.

Lemma includes_joined_witness :
  let a := [("listing_id", num 5); ("includes", JArr [])] in
  let b := [("listing_id", num 5);
            ("includes", JArr [JObj [("toString", num 1)]])] in
  a.["includes"] = Some (JArr []) /\
  JS.join "," [] = Some EmptyString /\
  interpolate a.["listing_id"] = Some "5" /\
  calls (stub_server None) (stub_ok JNull) "get_listing" (Some a)
  = [mkRequest GET "/application/listings/5" (Some []) None] /\
  JS.join "," [JObj [("toString", num 1)]] = None /\
  dispatch (stub_server None) (stub_ok JNull) "get_listing" (Some b)
  = (Throw (TypeError "Cannot convert object to primitive value"), []).
Proof.
  intros a b.
  assert (H : a.["includes"] = Some (JArr [])) by reflexivity.
  assert (Hj : JS.join "," [] = Some EmptyString) by reflexivity.
  assert (Hp : interpolate a.["listing_id"] = Some "5") by reflexivity.
  assert (Hbad : JS.join "," [JObj [("toString", num 1)]] = None) by reflexivity.
  split; [exact H|]. split; [exact Hj|]. split; [exact Hp|]. split.
  - exact (proj1 (includes_joined (stub_server None) (stub_ok JNull) a [] H)
             EmptyString "5" Hj Hp).
  - split; [exact Hbad|].
    exact (proj2 (includes_joined (stub_server None) (stub_ok JNull) b
                    [JObj [("toString", num 1)]] eq_refl) Hbad).
Defined.

(** X12.  No handler checks the identifier it puts in the path: a read tool
    on a bag without [shop_id] (or [listing_id]) still makes its request,
    to a path that spells [undefined]. *)
Theorem missing_identifier_requested
    (this : EtsyMCPServer) (t : transport) (a : bag) :
  (a.["shop_id"] = None ->
   forall name, In name ["get_shop"; "get_shop_listings"; "get_shop_sections"] ->
     exists req,
       calls this t name (Some a) = [req] /\
       String.prefix "/application/shops/undefined" (url req) = true)
  /\ (a.["listing_id"] = None ->
      forall name, In name ["get_listing_inventory"; "get_listing_images"] ->
        exists req,
          calls this t name (Some a) = [req] /\
          String.prefix "/application/listings/undefined" (url req) = true).
Proof.
  split; intros H name Hin; known_tool Hin.
  all: enter_handler; cbn [read]; rewrite bind_ret, H;
    unfold interpolate; cbn [converted]; rewrite bind_ret, try_http;
    cbn [snd]; eexists; split; reflexivity.
Qed.

Lemma missing_identifier_requested_witness :
  let a := [("limit", num 10)] in
  a.["shop_id"] = None /\
  In "get_shop_listings" ["get_shop"; "get_shop_listings"; "get_shop_sections"] /\
  exists req,
    calls (stub_server None) (stub_ok JNull) "get_shop_listings" (Some a) = [req] /\
    String.prefix "/application/shops/undefined" (url req) = true.
Proof.
  intro a.
  assert (H : a.["shop_id"] = None) by reflexivity.
  assert (Hin : In "get_shop_listings"
                  ["get_shop"; "get_shop_listings"; "get_shop_sections"])
    by (simpl; tauto).
  split; [exact H|]. split; [exact Hin|].
  exact (proj1 (missing_identifier_requested (stub_server None) (stub_ok JNull) a)
           H "get_shop_listings" Hin).
Defined.

(** X13.  The optional body fields of [create_listing],
    [update_listing_inventory] and [upload_listing_image] are sent as the
    bag has them when truthy and are left out when falsy: unlike
    [update_listing], [create_listing] drops a [shop_section_id] of 0, and
    [upload_listing_image] drops a [rank] of 0. *)
Theorem optional_body_fields
    (this : EtsyMCPServer) (t : transport) (name k : string) (a : bag)
    (req : request) (d : JS.object) :
  In (name, k)
     [ ("create_listing", "shipping_profile_id");
       ("create_listing", "shop_section_id");
       ("create_listing", "tags");
       ("update_listing_inventory", "price_on_property");
       ("update_listing_inventory", "quantity_on_property");
       ("update_listing_inventory", "sku_on_property");
       ("upload_listing_image", "rank");
       ("upload_listing_image", "alt_text") ] ->
  In req (calls this t name (Some a)) ->
  data req = Some d ->
  (truthy a.[k] = true -> assoc k d = Some a.[k]) /\
  (truthy a.[k] = false -> has_key k d = false).
Proof.
  intros Hin Hreq Hd. cbn [In] in Hin.
  repeat (destruct Hin as [Hin | Hin]; [injection Hin as <- <- | ]);
    [ .. | contradiction ].
  all: inspect_calls Hreq; cbn [data] in Hd; try discriminate Hd.
  all: injection Hd as <-; split; intro Hguard.
  all: unfold assign_if_truthy; rewrite ?Hguard; split_truthy; reflexivity.
Qed.

Lemma optional_body_fields_witness :
  let a := [("shop_id", num 1); ("title", JStr "Mug"); ("shop_section_id", num 0);
            ("tags", JArr [JStr "mug"])] in
  let d := [("quantity", None); ("title", Some (JStr "Mug"));
            ("description", None); ("price", None); ("who_made", None);
            ("when_made", None); ("taxonomy_id", None);
            ("tags", Some (JArr [JStr "mug"]))] in
  let req := mkRequest POST "/application/shops/1/listings" None (Some d) in
  In req (calls (stub_server (Some "token")) (stub_ok JNull)
            "create_listing" (Some a)) /\
  truthy a.["shop_section_id"] = false /\
  has_key "shop_section_id" d = false.
Proof.
  intros a d req.
  assert (Hreq : In req (calls (stub_server (Some "token")) (stub_ok JNull)
                           "create_listing" (Some a))) by (left; reflexivity).
  assert (Hf : truthy a.["shop_section_id"] = false) by reflexivity.
  split; [exact Hreq|]. split; [exact Hf|].
  exact (proj2 (optional_body_fields _ _ "create_listing" "shop_section_id"
                  a req d ltac:(simpl; tauto) Hreq eq_refl) Hf).
Defined.

(** X14.  A management tool transforms nothing: every field of the body it
    sends that holds a value holds the bag's value of the same name, except
    that [upload_listing_image] sends the bag's [image_url] as [image]. *)
Theorem body_copied_from_bag
    (this : EtsyMCPServer) (t : transport) (name : string) (a : bag)
    (req : request) (d : JS.object) (k : string) (v : json) :
  In name management_tools ->
  In req (calls this t name (Some a)) ->
  data req = Some d ->
  In (k, Some v) d ->
  a.[if (name =? "upload_listing_image") && (k =? "image")
     then "image_url" else k] = Some v.
Proof.
  intros Hin Hreq Hd Hk. known_tool Hin.
  all: inspect_calls Hreq; cbn [data] in Hd; try discriminate Hd.
  all: injection Hd as <-; revert Hk;
    unfold assign_if_truthy, assign_if_defined;
    repeat match goal with
           | |- context [truthy ?v] => destruct (truthy v)
           | |- context [match ?a.[?k] with _ => _ end] =>
               destruct (a.[k]) eqn:?
           end;
    cbn [In JS.set String.eqb Ascii.eqb Bool.eqb]; intro Hk.
  all: repeat match goal with
              | H : _ \/ _ |- _ => destruct H
              | H : False |- _ => contradiction
              | H : (_, _) = (_, _) |- _ => injection H as <- ?
              end.
  all: cbn [andb String.eqb Ascii.eqb Bool.eqb];
    first [assumption | symmetry; assumption | discriminate | congruence].
Qed.

Lemma body_copied_from_bag_witness :
  let a := [("shop_id", num 1); ("listing_id", num 2);
            ("image_url", JStr "https://img.example/1.jpg"); ("rank", num 1)] in
  let d := [("image", Some (JStr "https://img.example/1.jpg"));
            ("rank", Some (num 1))] in
  let req := mkRequest POST "/application/shops/1/listings/2/images" None (Some d) in
  In "upload_listing_image" management_tools /\
  In req (calls (stub_server (Some "token")) (stub_ok JNull)
            "upload_listing_image" (Some a)) /\
  In ("image", Some (JStr "https://img.example/1.jpg")) d /\
  a.["image_url"] = Some (JStr "https://img.example/1.jpg").
Proof.
  intros a d req.
  assert (Hin : In "upload_listing_image" management_tools) by (simpl; tauto).
  assert (Hreq : In req (calls (stub_server (Some "token")) (stub_ok JNull)
                           "upload_listing_image" (Some a)))
    by (left; reflexivity).
  assert (Hk : In ("image", Some (JStr "https://img.example/1.jpg")) d)
    by (left; reflexivity).
  split; [exact Hin|]. split; [exact Hreq|]. split; [exact Hk|].
  exact (body_copied_from_bag _ _ _ a req d "image" _ Hin Hreq eq_refl Hk).
Defined.

(** X15.  A handler reads the fields that its tool declares in
    [inputSchema.properties] and no others: on two bags that agree on those
    fields a call gives the same result and the same requests. *)
Theorem declared_fields_only
    (this : EtsyMCPServer) (t : transport) (tl : Tool) (a b : bag) :
  In tl getTools ->
  (forall k, In k (properties tl) -> a.[k] = b.[k]) ->
  dispatch this t (name tl) (Some a) = dispatch this t (name tl) (Some b).
Proof.
  intros Htl H. known_tool Htl.
  all: cbn [name properties] in *; enter_handler; cbn [read]; rewrite ?bind_ret.
  all: repeat match goal with
              | |- context [JS.get _ ?k] => rewrite (H k) by (simpl; tauto)
              end; reflexivity.
Qed.

Lemma declared_fields_only_witness :
  let tl := mkTool "get_shop" ["shop_id"] ["shop_id"] in
  let a := [("shop_id", num 3); ("verbose", JBool true)] in
  let b := [("shop_id", num 3)] in
  In tl getTools /\
  (forall k, In k (properties tl) -> a.[k] = b.[k]) /\
  dispatch (stub_server None) (stub_ok JNull) "get_shop" (Some a)
  = dispatch (stub_server None) (stub_ok JNull) "get_shop" (Some b).
Proof.
  intros tl a b.
  assert (Htl : In tl getTools) by (simpl; tauto).
  assert (H : forall k, In k (properties tl) -> a.[k] = b.[k]).
  { intros k [<- | []]. reflexivity. }
  split; [exact Htl|]. split; [exact H|].
  exact (declared_fields_only (stub_server None) (stub_ok JNull) tl a b Htl H).
Defined.

(* ================================================================== *)
(** ** Further properties of construction *)
(* ================================================================== *)

(** X16.  The constructor and the authorization gate agree: the server
    always carries [x-api-key]; it carries [Authorization: Bearer <token>]
    exactly when the token is truthy; without that header every management
    tool is refused, and with it no management tool is ever refused. *)
Theorem authorization_header_and_gate (cfg : EtsyConfig) :
  let this := new_EtsyMCPServer cfg in
  let hs := headers (axiosInstance this) in
  assoc "x-api-key" hs = Some (apiKey cfg) /\
  (assoc "Authorization" hs = None ->
   forall t name args,
     In name management_tools ->
     dispatch this t name args = (Return oauth_required, [])) /\
  (forall h, assoc "Authorization" hs = Some h ->
     (exists token, accessToken cfg = Some token /\ h = "Bearer " ++ token) /\
     forall t name args,
       In name management_tools ->
       dispatch this t name args <> (Return oauth_required, [])).
Proof.
  intros this hs.
  assert (Hh : hs = if present (accessToken cfg)
                    then [("x-api-key", apiKey cfg);
                          ("Authorization", "Bearer " ++ or_empty (accessToken cfg))]
                    else [("x-api-key", apiKey cfg)]).
  { subst hs this. unfold new_EtsyMCPServer. cbn [axiosInstance headers].
    destruct (present (accessToken cfg)); reflexivity. }
  rewrite Hh. clear Hh hs.
  destruct (present (accessToken cfg)) eqn:Htok.
  - split; [reflexivity|]. split.
    + intro H. discriminate H.
    + intros h H. injection H as <-. split.
      * destruct (accessToken cfg) as [token|]; [|discriminate Htok].
        exists token. split; reflexivity.
      * intros t name args Hin Hrefused.
        pose proof (dispatch_shape this t name args
                      (management_are_tools name Hin)) as S.
        rewrite Hrefused in S. inversion S as [_ Hno | | ].
        change (present (accessToken cfg) = false) in Hno.
        rewrite Htok in Hno. discriminate Hno.
  - split; [reflexivity|]. split.
    + intros _ t name args Hin. now apply refused_without_token.
    + intros h H. discriminate H.
Qed.

Lemma authorization_header_and_gate_witness :
  let this := new_EtsyMCPServer (mkEtsyConfig "key" None (Some EmptyString)) in
  let that := new_EtsyMCPServer (mkEtsyConfig "key" None (Some "abc")) in
  assoc "Authorization" (headers (axiosInstance this)) = None /\
  In "delete_listing" management_tools /\
  dispatch this (stub_ok JNull) "delete_listing" (Some [("listing_id", num 7)])
  = (Return oauth_required, []) /\
  assoc "Authorization" (headers (axiosInstance that)) = Some "Bearer abc" /\
  dispatch that (stub_ok JNull) "delete_listing" None
  <> (Return oauth_required, []).
Proof.
  intros this that.
  assert (H : assoc "Authorization" (headers (axiosInstance this)) = None)
    by reflexivity.
  assert (H' : assoc "Authorization" (headers (axiosInstance that))
               = Some "Bearer abc") by reflexivity.
  assert (Hin : In "delete_listing" management_tools) by (simpl; tauto).
  split; [exact H|]. split; [exact Hin|]. split; [|split; [exact H'|]].
  - exact (proj1 (proj2 (authorization_header_and_gate
                           (mkEtsyConfig "key" None (Some EmptyString))))
             H (stub_ok JNull) "delete_listing" (Some [("listing_id", num 7)]) Hin).
  - exact (proj2 (proj2 (proj2 (authorization_header_and_gate
                                  (mkEtsyConfig "key" None (Some "abc"))))
                    "Bearer abc" H')
             (stub_ok JNull) "delete_listing" None Hin).
Defined.

(** X17.  A server that [createServer] returns has a non-empty key, sends
    it as [x-api-key], and refuses every management tool when neither the
    configuration object nor [ETSY_ACCESS_TOKEN] gives a non-empty token. *)
Theorem createServer_then_dispatch
    (cfg : option SmitheryConfig) (env : environment) (server : EtsyMCPServer) :
  createServer cfg env = Return server ->
  apiKey (config server) <> EmptyString /\
  assoc "x-api-key" (headers (axiosInstance server)) = Some (apiKey (config server)) /\
  (present (match cfg with Some c => cfg_accessToken c | None => None end) = false ->
   present (env "ETSY_ACCESS_TOKEN") = false ->
   forall t name args,
     In name management_tools ->
     dispatch server t name args = (Return oauth_required, [])).
Proof.
  unfold createServer.
  match goal with
  | |- context [negb (present (Some (apiKey ?c)))] => set (etsyConfig := c)
  end.
  destruct (present (Some (apiKey etsyConfig))) eqn:Hkey; cbn [negb];
    intro H; [|discriminate H].
  injection H as <-. split; [|split].
  - cbn [config new_EtsyMCPServer]. intro E. rewrite E in Hkey. discriminate Hkey.
  - unfold new_EtsyMCPServer. cbn [axiosInstance headers config].
    destruct (present (accessToken etsyConfig)); reflexivity.
  - intros Hc He t name args Hin. apply refused_without_token; [exact Hin|].
    cbn [config new_EtsyMCPServer]. subst etsyConfig. cbn [accessToken].
    unfold or_string. rewrite Hc. exact He.
Qed.

Lemma createServer_then_dispatch_witness :
  let env : environment :=
    fun var => if var =? "ETSY_API_KEY" then Some "key" else None in
  let server := new_EtsyMCPServer (mkEtsyConfig "key" None None) in
  createServer None env = Return server /\
  present (env "ETSY_ACCESS_TOKEN") = false /\
  In "create_listing" management_tools /\
  dispatch server (stub_ok JNull) "create_listing" None
  = (Return oauth_required, []).
Proof.
  intros env server.
  assert (H : createServer None env = Return server) by reflexivity.
  assert (He : present (env "ETSY_ACCESS_TOKEN") = false) by reflexivity.
  assert (Hin : In "create_listing" management_tools) by (simpl; tauto).
  split; [exact H|]. split; [exact He|]. split; [exact Hin|].
  exact (proj2 (proj2 (createServer_then_dispatch None env server H))
           eq_refl He (stub_ok JNull) "create_listing" None Hin).
Defined.

(** X18.  Started from the command line, the server is the one that
    [createServer] builds from the environment without a configuration
    object; the process exits with code 1 exactly when [ETSY_API_KEY] is
    absent or empty, which is when [createServer] throws. *)
Theorem cli_entry_as_createServer (env : environment) :
  (forall server,
      cli_entry env = Serves server <-> createServer None env = Return server)
  /\ (cli_entry env
      = Exits 1 "Error: ETSY_API_KEY environment variable is required"
      <-> present (env "ETSY_API_KEY") = false)
  /\ (present (env "ETSY_API_KEY") = false <->
      createServer None env
      = Throw (Error "ETSY_API_KEY is required. Provide it via config or environment variable.")).
Proof.
  unfold cli_entry, createServer, or_string. cbn [option_map present].
  destruct (env "ETSY_API_KEY") as [[|c k]|]; cbn.
  all: repeat split; intros; try discriminate; try reflexivity.
  all: try (match goal with H : Serves _ = Serves _ |- _ => injection H as <- end;
            reflexivity).
  all: try (match goal with H : Return _ = Return _ |- _ => injection H as <- end;
            reflexivity).
Qed.

(* ================================================================== *)
(** ** Properties of prompts and resources *)
(* ================================================================== *)

(** X19.  [getPrompt] throws [Error "Unknown prompt: <name>"] exactly for
    the names that [getPrompts] does not list. *)
Theorem unknown_prompt_exactly_when_unlisted
    (pricing : prompt_args -> string) (name : string) (args : prompt_args) :
  getPrompt pricing name args = Throw (Error ("Unknown prompt: " ++ name))
  <-> ~ In name prompt_names.
Proof.
  unfold getPrompt. split.
  - intros H Hin. known_tool Hin; discriminate H.
  - intro H.
    repeat match goal with
    | |- context [String.eqb name ?s] =>
        destruct (String.eqb_spec name s) as [E | _];
        [ exfalso; apply H; rewrite E; simpl; tauto | ]
    end.
    reflexivity.
Qed.

(** X20.  For a listed prompt, [getPrompt] never throws, whatever the
    arguments and also without any: it returns exactly one message, of role
    [user], whose content is of type [text]. *)
Theorem listed_prompt_one_user_message
    (pricing : prompt_args -> string) (name : string) (args : prompt_args) :
  In name prompt_names ->
  exists s,
    getPrompt pricing name args
    = Return {| messages :=
                  [ {| role := "user";
                       message_content := {| type := "text"; text := s |} |} ] |}.
Proof.
  intro Hin. known_tool Hin; eexists; reflexivity.
Qed.

Lemma listed_prompt_one_user_message_witness :
  In "shop-analytics-review" prompt_names /\
  exists s,
    getPrompt (fun _ => EmptyString) "shop-analytics-review" None
    = Return {| messages :=
                  [ {| role := "user";
                       message_content := {| type := "text"; text := s |} |} ] |}.
Proof.
  assert (Hin : In "shop-analytics-review" prompt_names) by (simpl; tauto).
  split; [exact Hin|].
  exact (listed_prompt_one_user_message (fun _ => EmptyString) _ None Hin).
Defined.

(** X21.  Leaving out an argument that has a default, or giving it the
    empty string, is the same as giving the default: [product_type]
    defaults to [handmade], [focus_keywords] to [handmade, unique,
    quality], [time_period] to [last_month] and [product_category] to
    [general products]. *)
Theorem prompt_defaults
    (pricing : prompt_args -> string) (args : prompt_args)
    (name k d : string) :
  In (name, k, d)
     [ ("create-listing-guide", "product_type", "handmade");
       ("optimize-listing", "focus_keywords", "handmade, unique, quality");
       ("shop-analytics-review", "time_period", "last_month");
       ("product-photography-tips", "product_category", "general products") ] ->
  present (arg args k) = false ->
  getPrompt pricing name args
  = getPrompt pricing name
      (Some ((k, d) :: match args with Some a => a | None => [] end)).
Proof.
  intros Hin H. cbn [In] in Hin.
  repeat (destruct Hin as [Hin | Hin]; [injection Hin as <- <- <- | ]);
    [ .. | contradiction ].
  all: unfold getPrompt; cbn [String.eqb Ascii.eqb Bool.eqb];
    unfold or_literal; rewrite H; destruct args; reflexivity.
Qed.

Lemma prompt_defaults_witness :
  let args := Some [("listing_id", "42"); ("focus_keywords", EmptyString)] in
  present (arg args "focus_keywords") = false /\
  getPrompt (fun _ => EmptyString) "optimize-listing" args
  = getPrompt (fun _ => EmptyString) "optimize-listing"
      (Some [("focus_keywords", "handmade, unique, quality");
             ("listing_id", "42"); ("focus_keywords", EmptyString)]).
Proof.
  intro args.
  assert (H : present (arg args "focus_keywords") = false) by reflexivity.
  split; [exact H|].
  exact (prompt_defaults (fun _ => EmptyString) args "optimize-listing"
           "focus_keywords" "handmade, unique, quality"
           ltac:(simpl; tauto) H).
Defined.

(** X22.  The identifiers of [optimize-listing] and
    [shop-analytics-review] have no default and are not checked: without
    [listing_id] (or [shop_id]) the prompt is returned all the same and its
    text spells [undefined] where the identifier goes. *)
Theorem prompt_without_identifier
    (pricing : prompt_args -> string) (args : prompt_args) :
  (arg args "listing_id" = None ->
   exists s,
     getPrompt pricing "optimize-listing" args = Return (user_message s) /\
     String.prefix
       "Analyze and optimize Etsy listing undefined with focus on these keywords:"
       s = true)
  /\ (arg args "shop_id" = None ->
      exists s,
        getPrompt pricing "shop-analytics-review" args = Return (user_message s) /\
        String.prefix
          "Create a comprehensive analytics review for Etsy shop undefined covering"
          s = true).
Proof.
  split; intro H; unfold getPrompt; cbn [String.eqb Ascii.eqb Bool.eqb];
    rewrite H; eexists; (split; [reflexivity|]); reflexivity.
Qed.

Lemma prompt_without_identifier_witness :
  let args := Some [("focus_keywords", "silver ring")] in
  arg args "listing_id" = None /\
  exists s,
    getPrompt (fun _ => EmptyString) "optimize-listing" args
    = Return (user_message s) /\
    String.prefix
      "Analyze and optimize Etsy listing undefined with focus on these keywords:"
      s = true.
Proof.
  intro args.
  assert (H : arg args "listing_id" = None) by reflexivity.
  split; [exact H|].
  exact (proj1 (prompt_without_identifier (fun _ => EmptyString) args) H).
Defined.

(** X23.  [readResource] throws [Error "Unknown resource URI: <uri>"]
    exactly for the URIs that [getResources] does not list. *)
Theorem unknown_resource_exactly_when_unlisted
    (api handbook seo shipping photography : string) (uri : string) :
  readResource api handbook seo shipping photography uri
  = Throw (Error ("Unknown resource URI: " ++ uri))
  <-> ~ In uri resource_uris.
Proof.
  unfold readResource. split.
  - intros H Hin. known_tool Hin; discriminate H.
  - intro H.
    repeat match goal with
    | |- context [String.eqb uri ?s] =>
        destruct (String.eqb_spec uri s) as [E | _];
        [ exfalso; apply H; rewrite E; simpl; tauto | ]
    end.
    reflexivity.
Qed.

(** X24.  Reading a listed resource returns exactly one content, whose
    [uri] is the one asked for and whose [mimeType] is the one that
    [getResources] advertises for it. *)
Theorem resource_as_advertised
    (api handbook seo shipping photography : string) (r : Resource) :
  In r getResources ->
  exists text,
    readResource api handbook seo shipping photography (resource_uri r)
    = Return {| contents :=
                  [ {| uri := resource_uri r;
                       mimeType := resource_mimeType r;
                       resource_text := text |} ] |}.
Proof.
  intro Hin. known_tool Hin; eexists; reflexivity.
Qed.

Lemma resource_as_advertised_witness :
  let r := mkResource "etsy-fees-calculator" "etsy://tools/fees-calculator"
             "application/json" in
  In r getResources /\
  exists text,
    readResource EmptyString EmptyString EmptyString EmptyString EmptyString
      "etsy://tools/fees-calculator"
    = Return {| contents :=
                  [ {| uri := "etsy://tools/fees-calculator";
                       mimeType := "application/json";
                       resource_text := text |} ] |}.
Proof.
  intro r.
  assert (Hin : In r getResources) by (simpl; tauto).
  split; [exact Hin|].
  exact (resource_as_advertised EmptyString EmptyString EmptyString EmptyString
           EmptyString r Hin).
Defined.

(** X25.  Apart from [pricing-strategy], a prompt reads the arguments that
    [getPrompts] declares for it and no others: two argument records that
    agree on them give the same result. *)
Theorem declared_arguments_only
    (pricing : prompt_args -> string) (p : Prompt) (a b : prompt_args) :
  In p getPrompts ->
  prompt_name p <> "pricing-strategy" ->
  (forall k, In k (map arg_name (prompt_arguments p)) -> arg a k = arg b k) ->
  getPrompt pricing (prompt_name p) a = getPrompt pricing (prompt_name p) b.
Proof.
  intros Hin Hname H. known_tool Hin.
  all: cbn [prompt_name prompt_arguments map arg_name] in *;
    try (exfalso; apply Hname; reflexivity).
  all: unfold getPrompt; cbn [String.eqb Ascii.eqb Bool.eqb].
  all: repeat match goal with
              | |- context [arg _ ?k] => rewrite (H k) by (simpl; tauto)
              end; reflexivity.
Qed.

Lemma declared_arguments_only_witness :
  let p := mkPrompt "product-photography-tips"
             [mkPromptArgument "product_category" true] in
  let a := Some [("product_category", "jewelry"); ("style", "moody")] in
  let b := Some [("product_category", "jewelry")] in
  In p getPrompts /\
  prompt_name p <> "pricing-strategy" /\
  (forall k, In k (map arg_name (prompt_arguments p)) -> arg a k = arg b k) /\
  getPrompt (fun _ => EmptyString) "product-photography-tips" a
  = getPrompt (fun _ => EmptyString) "product-photography-tips" b.
Proof.
  intros p a b.
  assert (Hin : In p getPrompts) by (simpl; tauto).
  assert (Hname : prompt_name p <> "pricing-strategy") by discriminate.
  assert (H : forall k, In k (map arg_name (prompt_arguments p)) ->
                        arg a k = arg b k).
  { intros k [<- | []]. reflexivity. }
  split; [exact Hin|]. split; [exact Hname|]. split; [exact H|].
  exact (declared_arguments_only (fun _ => EmptyString) p a b Hin Hname H).
Defined.
